(** * publish-next-function: a shallow embedding of the GitHub action

    The action's entry point ([index.js]) loads its configuration, builds a
    Next.js application, packages the build output for Azure Functions and
    deploys it by driving the Azure CLI.  The repository holds three
    revisions of that file:

    - the current one (first document of [src/unnamed/part_001]), embedded
      at the top level of this development;
    - the one before it (second document of [src/unnamed/part_001]), whose
      pull-request check lives in [getIsPullRequest]: [Module Previous];
    - the first one ([src/src/index.js]), whose upload loop calls a helper
      named [sleep]: [Module Initial].

    JavaScript strings are modelled by [string] (one character for one
    code unit), the pull-request id by [N], a thrown value by [Js.Error],
    and the outside world (the Azure CLI, the file system, the Next.js
    build) by an oracle that decides, from the history of what has happened
    so far, whether an action fails and with which error. *)

From Stdlib Require Import String Ascii List NArith Arith Lia Bool.
Import ListNotations.
Open Scope string_scope.

(** ** JavaScript values *)

Module Js.

(** An [Error] object: the constructor's name and the message. *)
Record Error : Type := mkError { name : string; message : string }.

(** [new Error(msg)] (a second argument that is not an options bag with a
    [cause] leaves the message untouched). *)
Definition newError (msg : string) : Error := mkError "Error" msg.

(** Evaluating an identifier that has no binding. *)
Definition ReferenceError (ident : string) : Error :=
  mkError "ReferenceError" (ident ++ " is not defined").

(** Reading a property of [undefined]. *)
Definition TypeError (msg : string) : Error := mkError "TypeError" msg.

(** [Error.prototype.toString]. *)
Definition toString (e : Error) : string :=
  if (name e =? EmptyString) then message e
  else if (message e =? EmptyString) then name e
  else name e ++ ": " ++ message e.

(** Truthiness of a string, of an optional string ([undefined] is falsy)
    and of an optional number. *)
Definition truthy (s : string) : bool := negb (s =? EmptyString).

Definition truthy_opt (o : option string) : bool :=
  match o with
  | Some s => truthy s
  | None => false
  end.

Definition truthy_num (o : option N) : bool :=
  match o with
  | Some n => negb (n =? 0)%N
  | None => false
  end.

(** An optional string inside a template literal. *)
Definition render (o : option string) : string :=
  match o with
  | Some s => s
  | None => "undefined"
  end.

(** [s.substring(0, n)]. *)
Definition substring0 (n : nat) (s : string) : string := substring 0 n s.

(** [Number.MAX_SAFE_INTEGER], 2^53 - 1: up to it a JavaScript number
    holds every integer exactly. *)
Definition MAX_SAFE_INTEGER : N := 9007199254740991.

(** Decimal rendering of a natural number.  This is what [`${n}`] gives
    for the integers up to [MAX_SAFE_INTEGER]; beyond it a JavaScript
    number is rounded to a double and, from 10^21 on, printed with an
    exponent, which [Number_toString] does not follow: a statement that
    reads the digits of a pull-request id bounds the id. *)
Definition digit (d : N) : ascii := ascii_of_N (48 + d).

Fixpoint digits (fuel : nat) (n : N) (acc : string) : string :=
  match fuel with
  | O => acc
  | S fuel' =>
      let acc' := String (digit (n mod 10)) acc in
      if (n / 10 =? 0)%N then acc' else digits fuel' (n / 10) acc'
  end.

Definition Number_toString (n : N) : string :=
  digits (S (N.to_nat (N.log2 n))) n EmptyString.

(** The number a string of decimal digits denotes. *)
Fixpoint decimal_value (s : string) : N :=
  match s with
  | EmptyString => 0
  | String c s' =>
      ((N_of_ascii c - 48) * 10 ^ N.of_nat (String.length s') + decimal_value s')%N
  end.

(** The character class [[a-zA-Z0-9]]. *)
Definition alphanumeric (c : ascii) : bool :=
  let n := nat_of_ascii c in
  (((97 <=? n) && (n <=? 122)) || ((65 <=? n) && (n <=? 90))
   || ((48 <=? n) && (n <=? 57)))%nat.

(** [[^a-zA-Z0-9]+$] matched at the start of [s]: [s] is not empty and
    holds no alphanumeric character up to its end. *)
Fixpoint all_non_alphanumeric (s : string) : bool :=
  match s with
  | EmptyString => true
  | String c s' => negb (alphanumeric c) && all_non_alphanumeric s'
  end.

Definition trailing_run_matches (s : string) : bool :=
  match s with
  | EmptyString => false
  | String _ _ => all_non_alphanumeric s
  end.

(** [s.replace(new RegExp("[^a-zA-Z0-9]+$"), EMPTY)], the replacement being
    the empty string: the leftmost match is
    searched from each start position in turn and replaced by nothing. *)
Fixpoint replace_trailing_non_alphanumeric (s : string) : string :=
  match s with
  | EmptyString => EmptyString
  | String c s' =>
      if trailing_run_matches s then EmptyString
      else String c (replace_trailing_non_alphanumeric s')
  end.

(** The last character of a string. *)
Fixpoint last_char (s : string) : option ascii :=
  match s with
  | EmptyString => None
  | String c EmptyString => Some c
  | String _ s' => last_char s'
  end.

End Js.

(** ** Results of fallible code *)

Inductive Result (A : Type) : Type :=
| Ok (a : A)
| Throw (e : Js.Error).

Arguments Ok {A} a.
Arguments Throw {A} e.

Definition bindR {A B : Type} (r : Result A) (f : A -> Result B) : Result B :=
  match r with
  | Ok a => f a
  | Throw e => Throw e
  end.

Declare Scope result_scope.
Delimit Scope result_scope with result.
Notation "'let?' x ':=' r 'in' k" := (bindR r (fun x => k))
  (at level 10, x pattern, r at level 100, k at level 200) : result_scope.

(** ** Inputs of a run *)

(** [github.context.payload.pull_request]. *)
Record PullRequest : Type := { id : N }.

(** [github.context]. *)
Record Context : Type := {
  ctx_eventName : string;
  ctx_action : option string;
  ctx_pull_request : option PullRequest
}.

(** The action's inputs ([core.getInput]), the workspace path of the
    process environment and the event context. *)
Record Inputs : Type := {
  input_configuration : string;
  input_pull_request : string;
  input_app_settings : string;
  GITHUB_WORKSPACE : string;
  context : Context
}.

(** The object [JSON.parse(configuration)] yields: every documented field
    is a string or absent. *)
Record RawConfig : Type := {
  raw_subscriptionId : option string;
  raw_resourceGroup : option string;
  raw_location : option string;
  raw_name : option string;
  raw_storageAccount : option string;
  raw_plan : option string;
  raw_buildOutputDir : option string;
  raw_assetsContainerName : option string
}.

(** The configuration object [loadConfig] returns. *)
Record Config : Type := {
  subscriptionId : string;
  resourceGroup : string;
  location : string;
  name : string;
  storageAccount : string;
  plan : option string;
  buildOutputDir : string;
  assetsContainerName : string;
  action : option string;
  sourcePath : string;
  isPullRequest : bool;
  pullRequestId : option N;
  eventName : string;
  appSecretsJSON : string;
  buildOutputPath : string;
  buildPagesOutputPath : string;
  buildAssetOutputPath : string
}.

(** A compiled page as [NextBuild] describes it (the module [./next] is
    not part of the sources; these are the fields [package] reads). *)
Record Page : Type := {
  isStatic : bool;
  isSpecial : bool;
  pageSourcePath : string;
  targetPath : string;
  targetFolder : string;
  targetPageFileName : string
}.

(** What the code takes from modules outside the sources: [path.join],
    [JSON.parse] at the type of each input, the [./templates] functions and
    the page scan of [./next]. *)
Record Externals : Type := {
  join : list string -> string;
  parseConfiguration : string -> Result RawConfig;
  parseFlag : string -> Result bool;
  parseAppSettings : string -> Result (list (string * string));
  handler : string -> string;
  functionJson : Page -> string;
  proxiesJson : string -> list Page -> string;
  hostJson : string;
  scanPages : string -> string -> list Page
}.

(** ** Effects

    Everything the program does to the outside world is an [Action]; the
    oracle says whether it fails.  A run leaves a trace of [Event]s: what
    was printed, every action together with its outcome, every wait, and
    the failure reported to the workflow. *)

Inductive Action : Type :=
| Exec (cmd : string)
| RequireNextBuild (module : string)
| ParseNextConfiguration (dir : string)
| NextBuild (dir : string)
| NextBuildInit (dir pagesDir : string)
| Copy (src dst : string)
| WriteFile (path content : string)
| Archive (output cwd ignore : string)
| Remove (path : string).

Inductive Event : Type :=
| Log (msg : string)
| Did (a : Action) (failure : option Js.Error)
| Sleep (ms : N)
| SetFailed (msg : string).

Definition Oracle : Type := list Event -> Action -> option Js.Error.

(** A computation reads the history and yields a result together with the
    events it adds, oldest first. *)
Definition M (A : Type) : Type := list Event -> Result A * list Event.

Definition ret {A : Type} (a : A) : M A := fun _ => (Ok a, []).

Definition throw {A : Type} (e : Js.Error) : M A := fun _ => (Throw e, []).

Definition lift {A : Type} (r : Result A) : M A := fun _ => (r, []).

Definition bind {A B : Type} (m : M A) (f : A -> M B) : M B :=
  fun h =>
    match m h with
    | (Ok a, evs) => let (r, evs') := f a (h ++ evs)%list in (r, (evs ++ evs')%list)
    | (Throw e, evs) => (Throw e, evs)
    end.

(** [try { body } catch (e) { handler e }]. *)
Definition try_catch {A : Type} (body : M A) (handler : Js.Error -> M A) : M A :=
  fun h =>
    match body h with
    | (Ok a, evs) => (Ok a, evs)
    | (Throw e, evs) =>
        let (r, evs') := handler e (h ++ evs)%list in (r, (evs ++ evs')%list)
    end.

Definition log (msg : string) : M unit := fun _ => (Ok tt, [Log msg]).

(** [await new Promise(resolve => setTimeout(resolve, ms))]. *)
Definition sleep (ms : N) : M unit := fun _ => (Ok tt, [Sleep ms]).

(** [core.setFailed(msg)]. *)
Definition setFailed (msg : string) : M unit := fun _ => (Ok tt, [SetFailed msg]).

Definition perform (env : Oracle) (a : Action) : M unit :=
  fun h =>
    match env h a with
    | None => (Ok tt, [Did a None])
    | Some e => (Throw e, [Did a (Some e)])
    end.

(** Evaluating the identifier [ident] where [bindings] lists the names in
    scope; [value] is what a bound identifier evaluates to. *)
Definition identifier {A : Type} (bindings : list string) (ident : string)
    (value : A) : Result A :=
  if existsb (String.eqb ident) bindings then Ok value
  else Throw (Js.ReferenceError ident).

Declare Scope action_scope.
Delimit Scope action_scope with action.
Notation "x <- m ;; k" := (bind m (fun x => k))
  (at level 61, m at next level, right associativity) : action_scope.
Notation "m ;; k" := (bind m (fun _ => k))
  (at level 61, right associativity) : action_scope.
Open Scope action_scope.

(** [for (const x of xs) { body x }]. *)
Fixpoint forEach {A : Type} (xs : list A) (body : A -> M unit) : M unit :=
  match xs with
  | [] => ret tt
  | x :: xs' => body x;; forEach xs' body
  end.

(** The exit code the workflow sees: [core.setFailed] sets it to 1. *)
Definition is_SetFailed (e : Event) : bool :=
  match e with
  | SetFailed _ => true
  | _ => false
  end.

Definition exitCode (trace : list Event) : N :=
  if existsb is_SetFailed trace then 1%N else 0%N.

(** The actions of a trace with their outcomes, the command lines among
    them, and the files written. *)
Fixpoint actions (trace : list Event) : list (Action * option Js.Error) :=
  match trace with
  | [] => []
  | Did a r :: t => (a, r) :: actions t
  | _ :: t => actions t
  end.

Fixpoint commands (trace : list Event) : list string :=
  match trace with
  | [] => []
  | Did (Exec c) _ :: t => c :: commands t
  | _ :: t => commands t
  end.

(** A trace without what was printed. *)
Fixpoint effects (trace : list Event) : list Event :=
  match trace with
  | [] => []
  | Log _ :: t => effects t
  | e :: t => e :: effects t
  end.

(** ** The current revision of [index.js] *)

(** The names bound at the top of the module: the [require]d bindings and
    the function declarations. *)
Definition module_bindings : list string :=
  ["core"; "github"; "promisify"; "exec"; "fse"; "join"; "archiver";
   "execAsyncInternal"; "NextBuild"; "proxiesJson"; "handler";
   "functionJson"; "hostJson"; "run"; "loadConfig";
   "checkAzureCliIsAvailable"; "build"; "package"; "deploy";
   "configureAppSettings"; "clean"].

(** The names in scope in the body of [loadConfig]. *)
Definition loadConfig_bindings : list string :=
  (["configJSON"; "pullRequestJSON"; "appSecretsJSON"; "config"]
   ++ module_bindings)%list.

(** [if (!v) throw new Error("Configuration value is missing: field")]. *)
Definition required (field : string) (v : option string) : Result string :=
  match v with
  | Some s =>
      if Js.truthy s then Ok s
      else Throw (Js.newError ("Configuration value is missing: " ++ field))
  | None => Throw (Js.newError ("Configuration value is missing: " ++ field))
  end.

(** [if (!v) v = dflt]. *)
Definition defaulted (dflt : string) (v : option string) : string :=
  match v with
  | Some s => if Js.truthy s then s else dflt
  | None => dflt
  end.

Definition maxAttempts : N := 3.

Definition packageFilename : string := "package.zip".

Section Program.

Variable X : Externals.
Variable env : Oracle.

Open Scope result_scope.

(** Lines 50-61 of [loadConfig]: the pull-request flag and id. *)
Definition loadPullRequest (i : Inputs) : Result (bool * option N) :=
  if Js.truthy (input_pull_request i) then
    let? isPullRequest := parseFlag X (input_pull_request i) in
    if isPullRequest then
      if negb (ctx_eventName (context i) =? "pull_request") then
        let? shown :=
          identifier loadConfig_bindings "eventName"
            (ctx_eventName (context i)) in
        Throw (Js.newError
          ("Unable to run in pull request mode when event is not 'pull_request'. Actual event: "
           ++ shown))
      else
        match ctx_pull_request (context i) with
        | Some pr => Ok (true, Some (id pr))
        | None =>
            Throw (Js.TypeError "Cannot read property 'id' of undefined")
        end
    else Ok (false, None)
  else Ok (false, None).

(** Lines 95-112 of [loadConfig]: the names of a pull-request
    deployment. *)
Definition pullRequestMode (isPR : bool) (prId : option N) : bool :=
  isPR && Js.truthy_num prId.

Definition pullRequestSuffix (prId : N) : string :=
  "-" ++ Js.Number_toString prId.

Definition trimmedName (base : string) (prId : N) : string :=
  let nameLength := 60 - String.length (pullRequestSuffix prId) in
  Js.replace_trailing_non_alphanumeric (Js.substring0 nameLength base).

Definition pullRequestName (base : string) (prId : N) : string :=
  trimmedName base prId ++ "-" ++ Js.Number_toString prId.

Definition pullRequestStorageAccount (base : string) : string :=
  Js.substring0 24 ("pr" ++ base).

Definition pullRequestContainer (base : string) (prId : N) : string :=
  base ++ "-" ++ Js.Number_toString prId.

Definition loadConfig (i : Inputs) : Result Config :=
  let configJSON := input_configuration i in
  let appSecretsJSON := input_app_settings i in
  if negb (Js.truthy configJSON) then
    Throw (Js.newError "Configuration is missing")
  else
    let? config := parseConfiguration X configJSON in
    let sourcePath := GITHUB_WORKSPACE i in
    let? pr := loadPullRequest i in
    let isPullRequest := fst pr in
    let pullRequestId := snd pr in
    let? subscriptionId := required "subscriptionId" (raw_subscriptionId config) in
    let? resourceGroup := required "resourceGroup" (raw_resourceGroup config) in
    let? location := required "location" (raw_location config) in
    let? name := required "name" (raw_name config) in
    let? storageAccount := required "storageAccount" (raw_storageAccount config) in
    let buildOutputDir := defaulted "build" (raw_buildOutputDir config) in
    let assetsContainerName := defaulted "assets" (raw_assetsContainerName config) in
    let buildOutputPath := join X [sourcePath; buildOutputDir] in
    let buildPagesOutputPath := join X [buildOutputPath; "pages"] in
    let buildAssetOutputPath := join X [buildOutputPath; "assets"] in
    let rewritten :=
      if pullRequestMode isPullRequest pullRequestId then
        match pullRequestId with
        | Some prId =>
            (pullRequestName name prId,
             pullRequestStorageAccount storageAccount,
             pullRequestContainer assetsContainerName prId)
        | None => (name, storageAccount, assetsContainerName)
        end
      else (name, storageAccount, assetsContainerName) in
    Ok {| subscriptionId := subscriptionId;
          resourceGroup := resourceGroup;
          location := location;
          name := fst (fst rewritten);
          storageAccount := snd (fst rewritten);
          plan := raw_plan config;
          buildOutputDir := buildOutputDir;
          assetsContainerName := snd rewritten;
          action := ctx_action (context i);
          sourcePath := sourcePath;
          isPullRequest := isPullRequest;
          pullRequestId := pullRequestId;
          eventName := ctx_eventName (context i);
          appSecretsJSON := appSecretsJSON;
          buildOutputPath := buildOutputPath;
          buildPagesOutputPath := buildPagesOutputPath;
          buildAssetOutputPath := buildAssetOutputPath |}.

Close Scope result_scope.

Definition exec (cmd : string) : M unit := perform env (Exec cmd).

(** [checkAzureCliIsAvailable]. *)
Definition checkAzureCliIsAvailable : M unit :=
  try_catch (exec "az --version")
    (fun error =>
       log "Unable to find Azure CLI";;
       throw (Js.newError (Js.toString error))).

(** [build]. *)
Definition build (config : Config) : M unit :=
  log "Building next application";;
  try_catch
    (perform env
       (RequireNextBuild (sourcePath config ++ "/node_modules/next/dist/build")))
    (fun _ =>
       throw (Js.newError
         "Unable to load next module. Make sure next is in your package.json and you have run 'npm install'."));;
  perform env (ParseNextConfiguration (sourcePath config));;
  perform env (NextBuild (sourcePath config)).

(** [package]: the pages that get a handler, and the three artifacts
    written for each. *)
Definition handlerPages (pages : list Page) : list Page :=
  filter (fun p => negb (isStatic p) && negb (isSpecial p)) pages.

Definition wrapPage (page : Page) : M unit :=
  perform env (Copy (pageSourcePath page) (targetPath page));;
  perform env
    (WriteFile (join X [targetFolder page; "index.js"])
       (handler X (targetPageFileName page)));;
  perform env
    (WriteFile (join X [targetFolder page; "function.json"])
       (functionJson X page)).

Definition copyStaticPage (config : Config) (staticPage : Page) : M unit :=
  perform env
    (Copy (pageSourcePath staticPage)
       (join X [buildAssetOutputPath config; "pages";
                targetPageFileName staticPage])).

Definition package (config : Config) : M unit :=
  log "Packaging next application";;
  log "Scanning next build output";;
  perform env (NextBuildInit (sourcePath config) (buildPagesOutputPath config));;
  let pages := scanPages X (sourcePath config) (buildPagesOutputPath config) in
  log "Processing SSR pages...";;
  forEach (handlerPages pages) wrapPage;;
  log "Generating proxy configuration...";;
  perform env
    (WriteFile (join X [buildPagesOutputPath config; "proxies.json"])
       (proxiesJson X
          ("https://" ++ storageAccount config ++ ".blob.core.windows.net/"
           ++ assetsContainerName config ++ "/")
          pages));;
  log "Generating host configuration...";;
  perform env
    (WriteFile (join X [buildPagesOutputPath config; "host.json"]) (hostJson X));;
  log "Copying static assets";;
  perform env
    (Copy (join X [sourcePath config; ".next/static"])
       (join X [buildAssetOutputPath config; "static"]));;
  forEach (filter isStatic pages) (copyStaticPage config);;
  log "Building Azure functions package";;
  perform env
    (Archive (join X [buildOutputPath config; packageFilename])
       (buildPagesOutputPath config) packageFilename);;
  perform env
    (WriteFile (join X [buildOutputPath config; "packagename.txt"])
       packageFilename);;
  perform env (Remove (buildPagesOutputPath config)).

(** [deploy]: the command lines, then the steps in source order. *)
Definition cmd_group_create (c : Config) : string :=
  "az group create --subscription " ++ subscriptionId c ++ " --name "
  ++ resourceGroup c ++ " --location " ++ location c.

Definition cmd_storage_account_create (c : Config) : string :=
  "az storage account create --subscription " ++ subscriptionId c
  ++ " --name " ++ storageAccount c ++ " --location " ++ location c
  ++ " --resource-group " ++ resourceGroup c
  ++ " --kind StorageV2 --sku Standard_LRS".

Definition cmd_container_create (c : Config) : string :=
  "az storage container create --subscription " ++ subscriptionId c
  ++ " --name " ++ assetsContainerName c ++ " --account-name "
  ++ storageAccount c.

Definition cmd_container_set_permission (c : Config) : string :=
  "az storage container set-permission --public-access blob --subscription "
  ++ subscriptionId c ++ " --account-name " ++ storageAccount c
  ++ " --name " ++ assetsContainerName c.

Definition cmd_functionapp_create_plan (c : Config) (plan : string) : string :=
  "az functionapp create --subscription " ++ subscriptionId c
  ++ " --resource-group " ++ resourceGroup c ++ " --plan " ++ plan
  ++ "   --name " ++ name c ++ " --storage-account " ++ storageAccount c
  ++ " --runtime node".

Definition cmd_functionapp_create_consumption (c : Config) : string :=
  "az functionapp create --subscription " ++ subscriptionId c
  ++ " --resource-group " ++ resourceGroup c
  ++ " --consumption-plan-location " ++ location c
  ++ "   --name " ++ name c ++ " --storage-account " ++ storageAccount c
  ++ " --runtime node".

Definition cmd_run_from_package (c : Config) : string :=
  "az functionapp config appsettings set --settings WEBSITE_RUN_FROM_PACKAGE=1 --resource-group "
  ++ resourceGroup c ++ " --name " ++ name c.

Definition cmd_config_zip (c : Config) (packagePath : string) : string :=
  "az functionapp deployment source config-zip --subscription "
  ++ subscriptionId c ++ " -n " ++ name c ++ " -g " ++ resourceGroup c
  ++ " --src " ++ packagePath.

Definition cmd_upload_assets (c : Config) : string :=
  "az storage blob upload-batch --subscription " ++ subscriptionId c
  ++ " --account-name " ++ storageAccount c ++ " --destination "
  ++ assetsContainerName c ++ " --destination-path _next --source "
  ++ buildAssetOutputPath c.

Definition cmd_upload_public (c : Config) : string :=
  "az storage blob upload-batch --subscription " ++ subscriptionId c
  ++ " --account-name " ++ storageAccount c ++ " --destination "
  ++ assetsContainerName c ++ " --destination-path public --source "
  ++ join X [sourcePath c; "public"].

(** Lines 270-278. *)
Definition createResourceGroup (c : Config) : M unit :=
  try_catch
    (log ("Creating resource group '" ++ resourceGroup c ++ "'...");;
     exec (cmd_group_create c))
    (fun error => log "Unable to create resource group";; throw error).

(** Lines 280-288. *)
Definition createStorageAccount (c : Config) : M unit :=
  try_catch
    (log ("Creating storage account '" ++ storageAccount c ++ "'...");;
     exec (cmd_storage_account_create c))
    (fun error => log "Unable to create storage account";; throw error).

(** Lines 290-298. *)
Definition createStorageContainer (c : Config) : M unit :=
  try_catch
    (log ("Creating storage container '" ++ assetsContainerName c ++ "'...");;
     exec (cmd_container_create c))
    (fun error => log "Unable to create storage container";; throw error).

(** Lines 300-308. *)
Definition setContainerPermissions (c : Config) : M unit :=
  try_catch
    (log "Setting storage container permissions...";;
     exec (cmd_container_set_permission c))
    (fun error =>
       log "Unable to set storage container permissions";; throw error).

(** Lines 310-327. *)
Definition createFunctionApp (c : Config) : M unit :=
  try_catch
    (if Js.truthy_opt (plan c) then
       log ("Creating function app '" ++ name c ++ "' using '"
            ++ Js.render (plan c) ++ "' plan...");;
       exec (cmd_functionapp_create_plan c (Js.render (plan c)))
     else
       log ("Creating function app '" ++ name c
            ++ "' using consumption plan...");;
       exec (cmd_functionapp_create_consumption c))
    (fun error => log "Unable to create function app";; throw error).

(** Lines 329-337. *)
Definition enablePackageDeploy (c : Config) : M unit :=
  try_catch
    (log "Enabling package deploy...";;
     exec (cmd_run_from_package c))
    (fun error => log "Could not enable package deployment";; throw error).

(** Lines 342-362: the loop [for (attempt = 1; attempt <= maxAttempts;
    ++attempt)].  [fuel] bounds the iterations; a successful attempt
    leaves the loop ([break]). *)
Fixpoint uploadLoop (fuel : nat) (c : Config) (packagePath : string)
    (attempt : N) : M unit :=
  match fuel with
  | O => ret tt
  | S fuel' =>
      if (attempt <=? maxAttempts)%N then
        try_catch
          (log ("Attempting to upload package (" ++ Js.Number_toString attempt
                ++ "/" ++ Js.Number_toString maxAttempts ++ ")...");;
           exec (cmd_config_zip c packagePath);;
           log "Upload successful")
          (fun e =>
             if (attempt + 1 <=? maxAttempts)%N then
               log ("Could not deploy package to Azure function app, waiting 5s and then retrying... "
                    ++ Js.message e);;
               sleep 5000;;
               uploadLoop fuel' c packagePath (attempt + 1)
             else
               throw (Js.newError
                 "Could not deploy package to Azure function app"))
      else ret tt
  end.

(** Lines 339-362. *)
Definition uploadPackage (c : Config) : M unit :=
  log "Uploading package & assets...";;
  let packagePath := join X [buildOutputPath c; "package.zip"] in
  uploadLoop (N.to_nat maxAttempts) c packagePath 1.

(** Lines 364-371. *)
Definition uploadAssets (c : Config) : M unit :=
  log "Uploading assets to blob storage...";;
  try_catch (exec (cmd_upload_assets c))
    (fun _ =>
       throw (Js.newError "Could not upload assets to Azure blob storage")).

(** Lines 373-383. *)
Definition uploadPublicAssets (c : Config) : M unit :=
  log "Uploading public assets to blob storage...";;
  try_catch (exec (cmd_upload_public c))
    (fun _ =>
       throw (Js.newError
         "Could not upload public assets to Azure blob storage")).

Definition deployedUrl (c : Config) : string :=
  "https://" ++ name c ++ ".azurewebsites.net/".

Definition deploy (c : Config) : M unit :=
  log "Deploying next application";;
  createResourceGroup c;;
  createStorageAccount c;;
  createStorageContainer c;;
  setContainerPermissions c;;
  createFunctionApp c;;
  enablePackageDeploy c;;
  uploadPackage c;;
  uploadAssets c;;
  uploadPublicAssets c;;
  log ("Successfully deployed to " ++ deployedUrl c).

(** [configureAppSettings].  The parsed settings object is a list of
    key/value pairs in the order [Object.keys] enumerates them. *)
Definition Object_keys (o : list (string * string)) : list string :=
  map fst o.

Fixpoint property (o : list (string * string)) (key : string) : string :=
  match o with
  | [] => "undefined"
  | (k, v) :: o' => if (k =? key) then v else property o' key
  end.

Definition formatAppSettings (appSettings : list (string * string)) : string :=
  fold_left
    (fun settings key => settings ++ key ++ "=" ++ property appSettings key ++ " ")
    (Object_keys appSettings) EmptyString.

Definition cmd_appsettings (c : Config) (formattedAppSettings : string) : string :=
  "az functionapp config appsettings set --settings " ++ formattedAppSettings
  ++ " --resource-group " ++ resourceGroup c ++ " --name " ++ name c.

Definition configureAppSettings (c : Config) : M unit :=
  if Js.truthy (appSecretsJSON c) then
    appSettings <- lift (parseAppSettings X (appSecretsJSON c));;
    exec (cmd_appsettings c (formatAppSettings appSettings))
  else ret tt.

(** [clean]. *)
Definition cmd_functionapp_delete (c : Config) : string :=
  "az functionapp delete --subscription " ++ subscriptionId c
  ++ " --resource-group " ++ resourceGroup c ++ " --name " ++ name c.

Definition cmd_container_delete (c : Config) : string :=
  "az storage container delete --subscription " ++ subscriptionId c
  ++ " --name " ++ assetsContainerName c ++ " --account-name "
  ++ storageAccount c.

Definition cmd_extension_add : string :=
  "az extension add -n application-insights".

Definition cmd_app_insights_delete (c : Config) : string :=
  "az monitor app-insights component delete --subscription "
  ++ subscriptionId c ++ " --resource-group " ++ resourceGroup c
  ++ " --app " ++ name c.

Definition clean (c : Config) : M unit :=
  log ("Deleting function app '" ++ name c ++ "'...");;
  exec (cmd_functionapp_delete c);;
  log ("Deleting storage container '" ++ assetsContainerName c ++ "'...");;
  exec (cmd_container_delete c);;
  exec cmd_extension_add;;
  log ("Deleting app-insights '" ++ name c ++ "'...");;
  exec (cmd_app_insights_delete c).

(** [run]. *)
Definition teardown (c : Config) : bool :=
  isPullRequest c
  && match action c with
     | Some a => (a =? "closed")
     | None => false
     end.

(** The body of the [try] block of [run]. *)
Definition run_body (i : Inputs) : M unit :=
  config <- lift (loadConfig i);;
  checkAzureCliIsAvailable;;
  if teardown config then
    log "cleaning up closed pull request resources.";;
    clean config
  else
    build config;;
    package config;;
    deploy config;;
    configureAppSettings config.

Definition run (i : Inputs) : M unit :=
  try_catch (run_body i) (fun error => setFailed (Js.message error)).

(** The trace of a whole run, from an empty history. *)
Definition trace_of_run (i : Inputs) : list Event := snd (run i []).

End Program.

(** ** The previous revision: [getIsPullRequest]

    Second document of [src/unnamed/part_001].  [run] calls
    [getIsPullRequest] first; what follows the call is a parameter here. *)

Module Previous.

Definition module_bindings : list string :=
  ["core"; "github"; "promisify"; "exec"; "fse"; "join"; "archiver";
   "execAsyncInternal"; "NextBuild"; "proxiesJson"; "handler";
   "functionJson"; "hostJson"; "run"; "getIsPullRequest"; "loadConfig";
   "checkAzureCliIsAvailable"; "build"; "package"; "deploy";
   "configureAppSettings"; "clean"].

Definition getIsPullRequest_bindings : list string :=
  (["pullRequestJSON"; "isPullRequest"] ++ module_bindings)%list.

Open Scope result_scope.

Definition getIsPullRequest (X : Externals) (i : Inputs) : Result bool :=
  if Js.truthy (input_pull_request i) then
    let? isPullRequest := parseFlag X (input_pull_request i) in
    if isPullRequest && negb (ctx_eventName (context i) =? "pull_request") then
      let? shown :=
        identifier getIsPullRequest_bindings "eventName"
          (ctx_eventName (context i)) in
      Throw (Js.newError
        ("Unable to run in pull request mode when event is not 'pull_request'. Actual event: "
         ++ shown))
    else Ok isPullRequest
  else Ok false.

Close Scope result_scope.

Definition run (X : Externals) (i : Inputs) (remainder : bool -> M unit) : M unit :=
  try_catch
    (isPullRequest <- lift (getIsPullRequest X i);;
     remainder isPullRequest)
    (fun error => setFailed (Js.message error)).

End Previous.

(** ** The first revision: [src/src/index.js]

    Its [deploy] has no plan option and waits between upload attempts with
    [await sleep(5000)]; the module neither declares nor imports a
    [sleep]. *)

Module Initial.

Definition module_bindings : list string :=
  ["core"; "promisify"; "exec"; "nextBuild"; "fse"; "join"; "archiver";
   "parseNextConfiguration"; "NextBuild"; "proxiesJson"; "handler";
   "functionJson"; "hostJson"; "execAsyncInternal"; "run"; "loadConfig";
   "checkAzureCliIsAvailable"; "build"; "package"; "deploy";
   "configureAppSettings"].

(** The names in scope inside the upload loop of [deploy]. *)
Definition deploy_bindings : list string :=
  (["sourcePath"; "buildOutputPath"; "config"; "subscriptionId";
    "location"; "resourceGroup"; "storageAccount"; "assetsContainerName";
    "name"; "packagePath"; "maxAttempts"; "attempt"; "e"]
   ++ module_bindings)%list.

Section Program.

Variable X : Externals.
Variable env : Oracle.

(** Lines 264-284. *)
Fixpoint uploadLoop (fuel : nat) (c : Config) (packagePath : string)
    (attempt : N) : M unit :=
  match fuel with
  | O => ret tt
  | S fuel' =>
      if (attempt <=? maxAttempts)%N then
        try_catch
          (log ("Attempting to upload package (" ++ Js.Number_toString attempt
                ++ "/" ++ Js.Number_toString maxAttempts ++ ")...");;
           exec env (cmd_config_zip c packagePath);;
           log "Upload successful")
          (fun e =>
             if (attempt + 1 <=? maxAttempts)%N then
               log ("Could not deploy package to Azure function app, waiting 5s and then retrying... "
                    ++ Js.message e);;
               wait <- lift (identifier deploy_bindings "sleep" (sleep 5000));;
               wait;;
               uploadLoop fuel' c packagePath (attempt + 1)
             else
               throw (Js.newError
                 "Could not deploy package to Azure function app"))
      else ret tt
  end.

(** Lines 261-284. *)
Definition uploadPackage (c : Config) (buildOutputPath : string) : M unit :=
  log "Uploading package & assets...";;
  let packagePath := join X [buildOutputPath; "package.zip"] in
  uploadLoop (N.to_nat maxAttempts) c packagePath 1.

End Program.

End Initial.

(** ** Plans and their execution *)

(** An action that succeeded. *)
Definition succeeded (a : Action) : Action * option Js.Error := (a, None).

(** [attempts_in_order m plan]: whatever the oracle answers, [m] attempts
    the actions of [plan] in order, each once; it returns when all of them
    succeeded, and the first failure ends it: no later action is attempted
    and the error thrown is the error of the failed action. *)
Definition attempts_in_order (m : M unit) (plan : list Action) : Prop :=
  forall h,
    match m h with
    | (Ok _, evs) => actions evs = map succeeded plan
    | (Throw e, evs) =>
        exists done a rest,
          plan = (done ++ a :: rest)%list
          /\ actions evs = (map succeeded done ++ [(a, Some e)])%list
    end.


(** The artifacts [package] writes for a page it wraps: the copied module,
    the handler wrapper [index.js] and the binding [function.json]. *)
Definition handlerArtifacts (X : Externals) (page : Page) : list Action :=
  [Copy (pageSourcePath page) (targetPath page);
   WriteFile (join X [targetFolder page; "index.js"])
     (handler X (targetPageFileName page));
   WriteFile (join X [targetFolder page; "function.json"])
     (functionJson X page)].

Definition staticPageCopy (X : Externals) (c : Config) (staticPage : Page)
  : list Action :=
  [Copy (pageSourcePath staticPage)
     (join X [buildAssetOutputPath c; "pages"; targetPageFileName staticPage])].

(** What [package] does after the handlers are written, up to the
    archive. *)
Definition packageManifests (X : Externals) (c : Config) (pages : list Page)
  : list Action :=
  ([WriteFile (join X [buildPagesOutputPath c; "proxies.json"])
      (proxiesJson X
         ("https://" ++ storageAccount c ++ ".blob.core.windows.net/"
          ++ assetsContainerName c ++ "/")
         pages);
    WriteFile (join X [buildPagesOutputPath c; "host.json"]) (hostJson X);
    Copy (join X [sourcePath c; ".next/static"])
      (join X [buildAssetOutputPath c; "static"])]
   ++ flat_map (staticPageCopy X c) (filter isStatic pages))%list.

(** The archive, its manifest, and the removal of the working tree. *)
Definition packageArchive (X : Externals) (c : Config) : list Action :=
  [Archive (join X [buildOutputPath c; "package.zip"])
     (buildPagesOutputPath c) "package.zip";
   WriteFile (join X [buildOutputPath c; "packagename.txt"]) "package.zip";
   Remove (buildPagesOutputPath c)].

Definition packagePlan (X : Externals) (c : Config) : list Action :=
  let pages := scanPages X (sourcePath c) (buildPagesOutputPath c) in
  (NextBuildInit (sourcePath c) (buildPagesOutputPath c)
   :: flat_map (handlerArtifacts X) (handlerPages pages)
   ++ packageManifests X c pages
   ++ packageArchive X c)%list.

(** The six provisioning commands of [deploy] and its three uploads. *)
Definition functionAppCommand (c : Config) : string :=
  if Js.truthy_opt (plan c)
  then cmd_functionapp_create_plan c (Js.render (plan c))
  else cmd_functionapp_create_consumption c.

Definition provisioning (c : Config) : list string :=
  [cmd_group_create c; cmd_storage_account_create c; cmd_container_create c;
   cmd_container_set_permission c; functionAppCommand c;
   cmd_run_from_package c].

Definition uploads (X : Externals) (c : Config) : list string :=
  [cmd_config_zip c (join X [buildOutputPath c; "package.zip"]);
   cmd_upload_assets c; cmd_upload_public X c].

(** The content most recently written to [path] in a history. *)
Fixpoint last_written (h : list Event) (path : string) : option string :=
  match h with
  | [] => None
  | Did (WriteFile p content) None :: t =>
      match last_written t path with
      | Some later => Some later
      | None => if (p =? path) then Some content else None
      end
  | _ :: t => last_written t path
  end.

(** ** A sample workflow

    Concrete collaborators, inputs and oracles on which the definitions
    above can be evaluated. *)

Module Sample.

Definition raw : RawConfig :=
  {| raw_subscriptionId := Some "sub-1";
     raw_resourceGroup := Some "rg-web";
     raw_location := Some "westeurope";
     raw_name := Some "my-next-app";
     raw_storageAccount := Some "mynextstore";
     raw_plan := None;
     raw_buildOutputDir := None;
     raw_assetsContainerName := None |}.

Definition indexPage : Page :=
  {| isStatic := true; isSpecial := false;
     pageSourcePath := "/ws/.next/serverless/pages/index.html";
     targetPath := "/ws/build/pages/index/index.html";
     targetFolder := "/ws/build/pages/index";
     targetPageFileName := "index.html" |}.

Definition idPage : Page :=
  {| isStatic := false; isSpecial := false;
     pageSourcePath := "/ws/.next/serverless/pages/[id].js";
     targetPath := "/ws/build/pages/id/id.js";
     targetFolder := "/ws/build/pages/id";
     targetPageFileName := "id.js" |}.

Definition appPage : Page :=
  {| isStatic := false; isSpecial := true;
     pageSourcePath := "/ws/.next/serverless/pages/_app.js";
     targetPath := "/ws/build/pages/_app/_app.js";
     targetFolder := "/ws/build/pages/_app";
     targetPageFileName := "_app.js" |}.

Definition externals_for (parsed : RawConfig) : Externals :=
  {| join := String.concat "/";
     parseConfiguration := fun _ => Ok parsed;
     parseFlag := fun s => Ok (s =? "true");
     parseAppSettings := fun _ => Ok [("COSMOS_ENDPOINT", "https://db.example")];
     handler := fun file => "module.exports = require('./" ++ file ++ "');";
     functionJson := fun page => "{ scriptFile: '" ++ targetPageFileName page ++ "' }";
     proxiesJson := fun assets _ => "{ assets: '" ++ assets ++ "' }";
     hostJson := "{ version: '2.0' }";
     scanPages := fun _ _ => [indexPage; idPage; appPage] |}.

Definition externals : Externals := externals_for raw.

(** A configuration whose function-app name has 80 characters, two hyphens
    sitting where the name is cut for a ten-digit pull-request id. *)
Definition longName : string :=
  "contoso-marketing-website-frontend-next-js-prev--environment-for-pull-requests-x".

Definition longRaw : RawConfig :=
  {| raw_subscriptionId := Some "sub-1";
     raw_resourceGroup := Some "rg-web";
     raw_location := Some "westeurope";
     raw_name := Some longName;
     raw_storageAccount := Some "contosomarketingwebsitestore";
     raw_plan := Some "premium-plan";
     raw_buildOutputDir := None;
     raw_assetsContainerName := None |}.

(** A push to the default branch. *)
Definition push : Inputs :=
  {| input_configuration := "{...}";
     input_pull_request := "false";
     input_app_settings := "{...}";
     GITHUB_WORKSPACE := "/ws";
     context := {| ctx_eventName := "push"; ctx_action := None;
                   ctx_pull_request := None |} |}.

(** A pull request that was opened, and the same one closed. *)
Definition opened : Inputs :=
  {| input_configuration := "{...}";
     input_pull_request := "true";
     input_app_settings := EmptyString;
     GITHUB_WORKSPACE := "/ws";
     context := {| ctx_eventName := "pull_request";
                   ctx_action := Some "opened";
                   ctx_pull_request := Some {| id := 1234567890 |} |} |}.

Definition closed : Inputs :=
  {| input_configuration := "{...}";
     input_pull_request := "true";
     input_app_settings := EmptyString;
     GITHUB_WORKSPACE := "/ws";
     context := {| ctx_eventName := "pull_request";
                   ctx_action := Some "closed";
                   ctx_pull_request := Some {| id := 1234567890 |} |} |}.

(** The pull-request input set on a push event. *)
Definition misconfigured : Inputs :=
  {| input_configuration := "{...}";
     input_pull_request := "true";
     input_app_settings := EmptyString;
     GITHUB_WORKSPACE := "/ws";
     context := {| ctx_eventName := "push"; ctx_action := None;
                   ctx_pull_request := None |} |}.

(** The configuration [loadConfig] gives for [push]. *)
Definition config : Config :=
  {| subscriptionId := "sub-1"; resourceGroup := "rg-web";
     location := "westeurope"; name := "my-next-app";
     storageAccount := "mynextstore"; plan := None;
     buildOutputDir := "build"; assetsContainerName := "assets";
     action := None; sourcePath := "/ws"; isPullRequest := false;
     pullRequestId := None; eventName := "push";
     appSecretsJSON := "{...}";
     buildOutputPath := "/ws/build";
     buildPagesOutputPath := "/ws/build/pages";
     buildAssetOutputPath := "/ws/build/assets" |}.

(** The configuration [loadConfig] gives for [closed]. *)
Definition closedConfig : Config :=
  {| subscriptionId := "sub-1"; resourceGroup := "rg-web";
     location := "westeurope"; name := "my-next-app-1234567890";
     storageAccount := "prmynextstore"; plan := None;
     buildOutputDir := "build"; assetsContainerName := "assets-1234567890";
     action := Some "closed"; sourcePath := "/ws"; isPullRequest := true;
     pullRequestId := Some 1234567890%N; eventName := "pull_request";
     appSecretsJSON := EmptyString;
     buildOutputPath := "/ws/build";
     buildPagesOutputPath := "/ws/build/pages";
     buildAssetOutputPath := "/ws/build/assets" |}.

(** The configuration [loadConfig] gives for [opened] when the parsed
    configuration is [longRaw]. *)
Definition longConfig : Config :=
  {| subscriptionId := "sub-1"; resourceGroup := "rg-web";
     location := "westeurope";
     name := "contoso-marketing-website-frontend-next-js-prev-1234567890";
     storageAccount := "prcontosomarketingwebsit";
     plan := Some "premium-plan";
     buildOutputDir := "build"; assetsContainerName := "assets-1234567890";
     action := Some "opened"; sourcePath := "/ws"; isPullRequest := true;
     pullRequestId := Some 1234567890%N; eventName := "pull_request";
     appSecretsJSON := EmptyString;
     buildOutputPath := "/ws/build";
     buildPagesOutputPath := "/ws/build/pages";
     buildAssetOutputPath := "/ws/build/assets" |}.

(** Every action succeeds. *)
Definition allSucceed : Oracle := fun _ _ => None.

Definition failure : Js.Error := Js.newError "Command failed: az".

(** The commands whose text starts with [prefix] fail; everything else
    succeeds. *)
Definition failing (prefix : string) : Oracle :=
  fun _ a =>
    match a with
    | Exec cmd => if String.prefix prefix cmd then Some failure else None
    | _ => None
    end.

(** The first [n] attempts of the commands starting with [prefix] fail. *)
Definition failingFirst (n : nat) (prefix : string) : Oracle :=
  fun h a =>
    match a with
    | Exec cmd =>
        if String.prefix prefix cmd
        then if Nat.ltb (List.length (filter (String.prefix prefix) (commands h))) n
             then Some failure else None
        else None
    | _ => None
    end.

End Sample.

(** The command [configureAppSettings] issues, if any. *)
Definition settingsCommands (X : Externals) (c : Config) : list string :=
  if Js.truthy (appSecretsJSON c) then
    match parseAppSettings X (appSecretsJSON c) with
    | Ok appSettings => [cmd_appsettings c (formatAppSettings appSettings)]
    | Throw _ => []
    end
  else [].

(** The commands of a deployment in which the package upload takes
    [attempts] attempts. *)
Definition deploymentSteps (X : Externals) (c : Config) (attempts : nat)
  : list string :=
  (provisioning c
   ++ repeat (cmd_config_zip c (join X [buildOutputPath c; "package.zip"]))
        attempts
   ++ [cmd_upload_assets c; cmd_upload_public X c]
   ++ settingsCommands X c)%list.

(** The positions of the actions that failed, counted from [i]. *)
Fixpoint failures_from (i : nat) (acts : list (Action * option Js.Error))
  : list nat :=
  match acts with
  | [] => []
  | (_, Some _) :: t => i :: failures_from (S i) t
  | (_, None) :: t => failures_from (S i) t
  end.

(** What [createFunctionApp] prints before it runs [functionAppCommand]. *)
Definition functionAppLabel (c : Config) : string :=
  if Js.truthy_opt (plan c)
  then "Creating function app '" ++ name c ++ "' using '"
       ++ Js.render (plan c) ++ "' plan..."
  else "Creating function app '" ++ name c ++ "' using consumption plan...".



(** ** Reading a settings argument back

    The [--settings] argument is a sequence of space-separated
    [KEY=VALUE] words.  [decode] reads such an argument: it cuts it at the
    spaces, drops the empty words, and cuts every word at its first [=]. *)

Fixpoint split (sep : ascii) (s : string) : list string :=
  match s with
  | EmptyString => [EmptyString]
  | String ch s' =>
      if Ascii.eqb ch sep then EmptyString :: split sep s'
      else
        match split sep s' with
        | [] => [String ch EmptyString]
        | w :: ws => String ch w :: ws
        end
  end.

Definition words (s : string) : list string :=
  filter (fun w => negb (w =? EmptyString)) (split " " s).

Fixpoint cut (sep : ascii) (s : string) : option (string * string) :=
  match s with
  | EmptyString => None
  | String ch s' =>
      if Ascii.eqb ch sep then Some (EmptyString, s')
      else
        match cut sep s' with
        | Some (k, v) => Some (String ch k, v)
        | None => None
        end
  end.

Definition decode (argument : string) : list (string * string) :=
  flat_map
    (fun w =>
       match cut "=" w with
       | Some kv => [kv]
       | None => []
       end)
    (words argument).

(** The settings argument as a concatenation, pair by pair. *)
Fixpoint renderSettings (pairs : list (string * string)) : string :=
  match pairs with
  | [] => EmptyString
  | (k, v) :: rest => k ++ "=" ++ v ++ " " ++ renderSettings rest
  end.

(** [s] holds no occurrence of [ch]. *)
Fixpoint free_of (ch : ascii) (s : string) : bool :=
  match s with
  | EmptyString => true
  | String c s' => negb (Ascii.eqb c ch) && free_of ch s'
  end.

(** A settings object whose keys and values can be read back: keys hold
    neither a space nor [=], values hold no space. *)
Definition plain (appSettings : list (string * string)) : Prop :=
  forall k v,
    In (k, v) appSettings ->
    free_of " " k = true /\ free_of "=" k = true /\ free_of " " v = true.

(** ** Further definitions: configuration *)

(** The required fields of the parsed configuration, in the order
    [loadConfig] checks them. *)
Definition requiredFields (raw : RawConfig) : list (string * option string) :=
  [("subscriptionId", raw_subscriptionId raw);
   ("resourceGroup", raw_resourceGroup raw);
   ("location", raw_location raw);
   ("name", raw_name raw);
   ("storageAccount", raw_storageAccount raw)].

Definition missing (field : string * option string) : bool :=
  negb (Js.truthy_opt (snd field)).

(** The text after the last occurrence of [sep] in [s] ([s] itself when
    [sep] does not occur). *)
Fixpoint after_last (sep : ascii) (s : string) : string :=
  match s with
  | EmptyString => EmptyString
  | String ch s' =>
      if free_of sep s' then (if Ascii.eqb ch sep then s' else s)
      else after_last sep s'
  end.

Module Scenario.

(** A configuration with an empty location and no name. *)
Definition incompleteRaw : RawConfig :=
  {| raw_subscriptionId := Some "sub-1";
     raw_resourceGroup := Some "rg-web";
     raw_location := Some EmptyString;
     raw_name := None;
     raw_storageAccount := Some "mynextstore";
     raw_plan := None;
     raw_buildOutputDir := None;
     raw_assetsContainerName := None |}.

(** The configuration [loadConfig] gives for [Sample.opened]. *)
Definition openedConfig : Config :=
  {| subscriptionId := "sub-1"; resourceGroup := "rg-web";
     location := "westeurope"; name := "my-next-app-1234567890";
     storageAccount := "prmynextstore"; plan := None;
     buildOutputDir := "build"; assetsContainerName := "assets-1234567890";
     action := Some "opened"; sourcePath := "/ws"; isPullRequest := true;
     pullRequestId := Some 1234567890%N; eventName := "pull_request";
     appSecretsJSON := EmptyString;
     buildOutputPath := "/ws/build";
     buildPagesOutputPath := "/ws/build/pages";
     buildAssetOutputPath := "/ws/build/assets" |}.

(** Another pull request of the same repository. *)
Definition otherOpened : Inputs :=
  {| input_configuration := "{...}";
     input_pull_request := "true";
     input_app_settings := EmptyString;
     GITHUB_WORKSPACE := "/ws";
     context := {| ctx_eventName := "pull_request";
                   ctx_action := Some "opened";
                   ctx_pull_request := Some {| id := 1234567891 |} |} |}.

(** The configuration [loadConfig] gives for [otherOpened]. *)
Definition otherOpenedConfig : Config :=
  {| subscriptionId := "sub-1"; resourceGroup := "rg-web";
     location := "westeurope"; name := "my-next-app-1234567891";
     storageAccount := "prmynextstore"; plan := None;
     buildOutputDir := "build"; assetsContainerName := "assets-1234567891";
     action := Some "opened"; sourcePath := "/ws"; isPullRequest := true;
     pullRequestId := Some 1234567891%N; eventName := "pull_request";
     appSecretsJSON := EmptyString;
     buildOutputPath := "/ws/build";
     buildPagesOutputPath := "/ws/build/pages";
     buildAssetOutputPath := "/ws/build/assets" |}.

(** The pull-request input set, with a pull request whose id is 0. *)
Definition zeroId : Inputs :=
  {| input_configuration := "{...}";
     input_pull_request := "true";
     input_app_settings := EmptyString;
     GITHUB_WORKSPACE := "/ws";
     context := {| ctx_eventName := "pull_request";
                   ctx_action := Some "opened";
                   ctx_pull_request := Some {| id := 0 |} |} |}.

Definition zeroIdConfig : Config :=
  {| subscriptionId := "sub-1"; resourceGroup := "rg-web";
     location := "westeurope"; name := "my-next-app";
     storageAccount := "mynextstore"; plan := None;
     buildOutputDir := "build"; assetsContainerName := "assets";
     action := Some "opened"; sourcePath := "/ws"; isPullRequest := true;
     pullRequestId := Some 0%N; eventName := "pull_request";
     appSecretsJSON := EmptyString;
     buildOutputPath := "/ws/build";
     buildPagesOutputPath := "/ws/build/pages";
     buildAssetOutputPath := "/ws/build/assets" |}.

End Scenario.

(** ** Further definitions: traces *)

(** The waits of a trace, in milliseconds. *)
Fixpoint waits (trace : list Event) : list N :=
  match trace with
  | [] => []
  | Sleep ms :: t => ms :: waits t
  | _ :: t => waits t
  end.

(** No wait inside a computation. *)
Definition never_waits {A : Type} (m : M A) : Prop :=
  forall h, waits (snd (m h)) = [].

(** The waits of a computation are one of the sequences of [allowed]. *)
Definition waits_among {A : Type} (allowed : list (list N)) (m : M A) : Prop :=
  forall h, In (waits (snd (m h))) allowed.

Definition teardownCommands (c : Config) : list string :=
  ["az --version"; cmd_functionapp_delete c; cmd_container_delete c;
   cmd_extension_add; cmd_app_insights_delete c].

Definition is_Remove (a : Action) : bool :=
  match a with
  | Remove _ => true
  | _ => false
  end.

Definition buildPlan (c : Config) : list Action :=
  [RequireNextBuild (sourcePath c ++ "/node_modules/next/dist/build");
   ParseNextConfiguration (sourcePath c);
   NextBuild (sourcePath c)].

(** ** [parseNextConfiguration.js]

    The later of the two revisions in [src/src/index.js] (lines 355-387):
    the loader of the Next.js configuration and the build phase are
    required from the layout of [next-server] and, when that fails, from
    the layout Next.js has had since 9.0.6. *)

Module NextConfiguration.

Section Values.

(** The values of a configuration object other than strings. *)
Variable V : Type.

Inductive Value : Type :=
| Text (s : string)
| Other (v : V).

(** An object: its own properties in the order of [Object.keys]. *)
Definition Obj : Type := list (string * Value).

(** [o[key]]. *)
Fixpoint get (o : Obj) (key : string) : option Value :=
  match o with
  | [] => None
  | (k, v) :: o' => if (k =? key) then Some v else get o' key
  end.

(** [o[key] = v]: an existing property keeps its place, a new one comes
    last. *)
Fixpoint assign (o : Obj) (key : string) (v : Value) : Obj :=
  match o with
  | [] => [(key, v)]
  | (k, w) :: o' =>
      if (k =? key) then (k, v) :: o' else (k, w) :: assign o' key v
  end.

(** [nextLoadConfig(phase, dir)]. *)
Definition Loader : Type := string -> string -> Result Obj.

(** What [require] gives for the two kinds of module the function loads:
    the default export of a configuration module, and the
    [PHASE_PRODUCTION_BUILD] export of a constants module. *)
Record NodeModules : Type := {
  requireConfig : string -> Result Loader;
  requireConstants : string -> Result string
}.

Open Scope result_scope.

Definition requireBoth (N : NodeModules) (config constants : string)
  : Result (Loader * string) :=
  let? nextLoadConfig := requireConfig N config in
  let? PHASE_PRODUCTION_BUILD := requireConstants N constants in
  Ok (nextLoadConfig, PHASE_PRODUCTION_BUILD).

Definition parseNextConfiguration (N : NodeModules) (sourcePath : string)
  : Result Obj :=
  let? loaded :=
    match requireBoth N
            (sourcePath ++ "/node_modules/next-server/dist/server/config")
            (sourcePath ++ "/node_modules/next-server/dist/lib/constants")
    with
    | Ok loaded => Ok loaded
    | Throw _ =>
        requireBoth N
          (sourcePath ++ "/node_modules/next/dist/next-server/server/config")
          (sourcePath ++ "/node_modules/next/dist/next-server/lib/constants")
    end in
  let? nextConfiguration := fst loaded (snd loaded) sourcePath in
  Ok (assign nextConfiguration "target" (Text "serverless")).

Close Scope result_scope.

End Values.

Arguments Text {V} s.
Arguments Other {V} v.
Arguments get {V} o key.
Arguments assign {V} o key v.
Arguments requireConfig {V} n _.
Arguments requireConstants {V} n _.
Arguments requireBoth {V} N config constants.
Arguments parseNextConfiguration {V} N sourcePath.

(** A project on Next.js 9.0.6 or later: only the new layout exists; its
    configuration asks for the [server] target. *)
Definition missing (module : string) : Js.Error :=
  Js.newError ("Cannot find module '" ++ module ++ "'").

Definition userConfiguration : Obj nat :=
  [("target", Text "server"); ("poweredByHeader", Other 0);
   ("distDir", Text ".next")].

Definition recent : NodeModules nat :=
  {| requireConfig := fun module =>
       if (module =? "/ws/node_modules/next/dist/next-server/server/config")
       then Ok (fun _ _ => Ok userConfiguration)
       else Throw (missing module);
     requireConstants := fun module =>
       if (module =? "/ws/node_modules/next/dist/next-server/lib/constants")
       then Ok "phase-production-build"
       else Throw (missing module) |}.

End NextConfiguration.

(** ** The previous revision: [loadConfig] and the head of [run]

    Second document of [src/unnamed/part_001], lines 442-452 and
    483-538. *)

Module PreviousConfiguration.

(** The object [loadConfig] returns: the parsed configuration with its
    defaults and, for a pull request, its rewritten names. *)
Record Config : Type := {
  subscriptionId : string;
  resourceGroup : string;
  location : string;
  name : string;
  storageAccount : string;
  buildOutputDir : string;
  assetsContainerName : string
}.

Open Scope result_scope.

(** [loadConfig(pullRequestId)]. *)
Definition loadConfig (X : Externals) (i : Inputs) (pullRequestId : option N)
  : Result Config :=
  let configJSON := input_configuration i in
  if negb (Js.truthy configJSON) then
    Throw (Js.newError "Configuration is missing")
  else
    let? config := parseConfiguration X configJSON in
    let? subscriptionId := required "subscriptionId" (raw_subscriptionId config) in
    let? resourceGroup := required "resourceGroup" (raw_resourceGroup config) in
    let? location := required "location" (raw_location config) in
    let? name := required "name" (raw_name config) in
    let? storageAccount := required "storageAccount" (raw_storageAccount config) in
    let buildOutputDir := defaulted "build" (raw_buildOutputDir config) in
    let assetsContainerName := defaulted "assets" (raw_assetsContainerName config) in
    let rewritten :=
      if Js.truthy_num pullRequestId then
        match pullRequestId with
        | Some prId =>
            (pullRequestName name prId,
             pullRequestStorageAccount storageAccount,
             pullRequestContainer assetsContainerName prId)
        | None => (name, storageAccount, assetsContainerName)
        end
      else (name, storageAccount, assetsContainerName) in
    Ok {| subscriptionId := subscriptionId;
          resourceGroup := resourceGroup;
          location := location;
          name := fst (fst rewritten);
          storageAccount := snd (fst rewritten);
          buildOutputDir := buildOutputDir;
          assetsContainerName := snd rewritten |}.

(** The first statements of [run]: the pull-request flag, the id, the
    configuration. *)
Definition configure (X : Externals) (i : Inputs)
  : Result (bool * option N * Config) :=
  let? isPullRequest := Previous.getIsPullRequest X i in
  let? pullRequestId :=
    if isPullRequest then
      match ctx_pull_request (context i) with
      | Some pr => Ok (Some (id pr))
      | None => Throw (Js.TypeError "Cannot read property 'id' of undefined")
      end
    else Ok None in
  let? config := loadConfig X i pullRequestId in
  Ok (isPullRequest, pullRequestId, config).

Close Scope result_scope.

End PreviousConfiguration.


(** What the two revisions have in common in a returned configuration. *)
Definition same_configuration (c : Config)
    (p : bool * option N * PreviousConfiguration.Config)
  : Prop :=
  isPullRequest c = fst (fst p)
  /\ pullRequestId c = snd (fst p)
  /\ subscriptionId c = PreviousConfiguration.subscriptionId (snd p)
  /\ resourceGroup c = PreviousConfiguration.resourceGroup (snd p)
  /\ location c = PreviousConfiguration.location (snd p)
  /\ name c = PreviousConfiguration.name (snd p)
  /\ storageAccount c = PreviousConfiguration.storageAccount (snd p)
  /\ buildOutputDir c = PreviousConfiguration.buildOutputDir (snd p)
  /\ assetsContainerName c = PreviousConfiguration.assetsContainerName (snd p).

(** ** Further definitions: failures and copies *)




(** The destinations to which the actions of a list copy [src]. *)
Fixpoint copiesOf (src : string) (acts : list Action) : list string :=
  match acts with
  | [] => []
  | Copy s d :: t =>
      if (s =? src) then d :: copiesOf src t else copiesOf src t
  | _ :: t => copiesOf src t
  end.

(** * Properties *)

(** ** Strings and numbers *)

Lemma length_append (a b : string) :
  String.length (a ++ b) = String.length a + String.length b.
Proof.
  induction a as [|ch a IH]; simpl; [reflexivity|].
  now rewrite IH.
Qed.

Lemma length_substring0 (n : nat) (s : string) :
  String.length (Js.substring0 n s) <= n.
Proof.
  unfold Js.substring0.
  revert n; induction s as [|ch s IH]; intros [|n]; simpl; try lia.
  specialize (IH n). lia.
Qed.

Lemma substring0_prefix (n : nat) (s : string) :
  exists rest, s = Js.substring0 n s ++ rest.
Proof.
  unfold Js.substring0.
  revert n; induction s as [|ch s IH]; intros [|n]; simpl.
  - now exists EmptyString.
  - now exists EmptyString.
  - now exists (String ch s).
  - destruct (IH n) as [rest E]. exists rest. now rewrite <- E.
Qed.

Lemma length_replace_trailing (s : string) :
  String.length (Js.replace_trailing_non_alphanumeric s) <= String.length s.
Proof.
  induction s as [|ch s IH]; [simpl; lia|].
  cbn [Js.replace_trailing_non_alphanumeric].
  destruct (Js.trailing_run_matches (String ch s)); simpl; lia.
Qed.

Lemma replace_trailing_prefix (s : string) :
  exists rest,
    s = Js.replace_trailing_non_alphanumeric s ++ rest
    /\ Js.all_non_alphanumeric rest = true.
Proof.
  induction s as [|ch s IH].
  - now exists EmptyString.
  - cbn [Js.replace_trailing_non_alphanumeric].
    destruct (Js.trailing_run_matches (String ch s)) eqn:E.
    + exists (String ch s). split; [reflexivity|exact E].
    + destruct IH as [rest [E1 E2]]. exists rest. split; [|exact E2].
      simpl. now rewrite <- E1.
Qed.

(** What the replacement leaves does not end in a character outside
    [[a-zA-Z0-9]]. *)
Lemma replace_trailing_last_char (s : string) (ch : ascii) :
  Js.last_char (Js.replace_trailing_non_alphanumeric s) = Some ch ->
  Js.alphanumeric ch = true.
Proof.
  induction s as [|c s IH]; [discriminate|].
  cbn [Js.replace_trailing_non_alphanumeric].
  destruct (Js.trailing_run_matches (String c s)) eqn:E; [discriminate|].
  cbn [Js.last_char].
  destruct (Js.replace_trailing_non_alphanumeric s) as [|c' s'] eqn:R.
  - intros [= <-].
    destruct s as [|d s].
    + simpl in E. rewrite andb_true_r in E.
      now apply negb_false_iff in E.
    + cbn [Js.replace_trailing_non_alphanumeric] in R.
      destruct (Js.trailing_run_matches (String d s)) eqn:E'; [|discriminate].
      cbn [Js.trailing_run_matches Js.all_non_alphanumeric] in E, E'.
      cbn [Js.all_non_alphanumeric] in E'.
      rewrite E', andb_true_r in E.
      now apply negb_false_iff in E.
  - exact IH.
Qed.

Lemma length_digits (fuel : nat) (k : nat) (n : N) (acc : string) :
  1 <= k -> (n < 10 ^ N.of_nat k)%N ->
  String.length (Js.digits fuel n acc) <= String.length acc + k.
Proof.
  revert k n acc; induction fuel as [|fuel IH]; intros k n acc Hk Hn.
  - simpl; lia.
  - cbn [Js.digits].
    destruct (n / 10 =? 0)%N eqn:E.
    + simpl; lia.
    + apply N.eqb_neq in E.
      destruct k as [|[|k]]; [lia| |].
      * exfalso. apply E. apply N.div_small. exact Hn.
      * specialize (IH (S k) (n / 10)%N
                      (String (Js.digit (n mod 10)) acc)).
        cbn [String.length] in IH.
        assert (H : (n / 10 < 10 ^ N.of_nat (S k))%N).
        { apply N.Div0.div_lt_upper_bound.
          replace (N.of_nat (S (S k))) with (N.succ (N.of_nat (S k))) in Hn by lia.
          now rewrite N.pow_succ_r' in Hn. }
        specialize (IH ltac:(lia) H). lia.
Qed.

Lemma length_Number_toString (k : nat) (n : N) :
  1 <= k -> (n < 10 ^ N.of_nat k)%N ->
  String.length (Js.Number_toString n) <= k.
Proof.
  intros Hk Hn. unfold Js.Number_toString.
  pose proof (length_digits (S (N.to_nat (N.log2 n))) k n EmptyString Hk Hn) as H.
  change (String.length EmptyString) with 0 in H. lia.
Qed.

(** The digits [Number_toString] writes denote the number. *)
Lemma decimal_value_digits (fuel : nat) (n : N) (acc : string) :
  (n < 2 ^ N.of_nat fuel)%N -> 1 <= fuel ->
  Js.decimal_value (Js.digits fuel n acc)
  = (n * 10 ^ N.of_nat (String.length acc) + Js.decimal_value acc)%N.
Proof.
  revert n acc; induction fuel as [|fuel IH]; intros n acc Hn Hf; [lia|].
  cbn [Js.digits].
  pose proof (N.div_mod n 10 ltac:(lia)) as Hdiv.
  pose proof (N.mod_lt n 10 ltac:(lia)) as Hmod.
  set (q := (n / 10)%N) in *. set (d := (n mod 10)%N) in *.
  assert (Hd : (N_of_ascii (Js.digit d) - 48 = d)%N).
  { unfold Js.digit. rewrite N_ascii_embedding; lia. }
  destruct (q =? 0)%N eqn:E.
  - apply N.eqb_eq in E.
    cbn [Js.decimal_value]. rewrite Hd.
    replace n with d by lia. reflexivity.
  - apply N.eqb_neq in E.
    assert (Hlt : (q < 2 ^ N.of_nat fuel)%N).
    { replace (N.of_nat (S fuel)) with (N.succ (N.of_nat fuel)) in Hn by lia.
      rewrite N.pow_succ_r' in Hn. lia. }
    destruct fuel as [|fuel'].
    { exfalso. apply E. simpl in Hlt. lia. }
    rewrite IH by (try exact Hlt; lia).
    cbn [Js.decimal_value String.length]. rewrite Hd.
    replace (N.of_nat (S (String.length acc)))
      with (N.succ (N.of_nat (String.length acc))) by lia.
    rewrite N.pow_succ_r'. rewrite Hdiv. ring.
Qed.

Lemma decimal_value_Number_toString (n : N) :
  Js.decimal_value (Js.Number_toString n) = n.
Proof.
  unfold Js.Number_toString.
  rewrite decimal_value_digits.
  - simpl. lia.
  - destruct n as [|p]; [simpl; lia|].
    replace (N.of_nat (S (N.to_nat (N.log2 (N.pos p)))))
      with (N.succ (N.log2 (N.pos p))) by lia.
    apply N.log2_spec. lia.
  - lia.
Qed.

(** ** Loading the configuration *)

Lemma required_Ok (field : string) (v : option string) (s : string) :
  required field v = Ok s -> v = Some s /\ Js.truthy s = true.
Proof.
  unfold required. destruct v as [s'|]; [|discriminate].
  destruct (Js.truthy s') eqn:E; [|discriminate].
  intros [= <-]. now split.
Qed.

(** What [loadConfig] returns, field by field, in terms of the parsed
    configuration and of the pull-request flag and id. *)
Lemma loadConfig_Ok (X : Externals) (i : Inputs) (cfg : Config) :
  loadConfig X i = Ok cfg ->
  exists raw isPR prId nm sa,
    parseConfiguration X (input_configuration i) = Ok raw
    /\ loadPullRequest X i = Ok (isPR, prId)
    /\ raw_name raw = Some nm /\ raw_storageAccount raw = Some sa
    /\ isPullRequest cfg = isPR /\ pullRequestId cfg = prId
    /\ plan cfg = raw_plan raw
    /\ appSecretsJSON cfg = input_app_settings i
    /\ action cfg = ctx_action (context i)
    /\ (name cfg, storageAccount cfg, assetsContainerName cfg)
       = if pullRequestMode isPR prId then
           match prId with
           | Some n =>
               (pullRequestName nm n, pullRequestStorageAccount sa,
                pullRequestContainer
                  (defaulted "assets" (raw_assetsContainerName raw)) n)
           | None =>
               (nm, sa, defaulted "assets" (raw_assetsContainerName raw))
           end
         else (nm, sa, defaulted "assets" (raw_assetsContainerName raw)).
Proof.
  unfold loadConfig.
  destruct (negb (Js.truthy (input_configuration i))); [discriminate|].
  destruct (parseConfiguration X (input_configuration i)) as [raw|]; [|discriminate].
  cbn [bindR].
  destruct (loadPullRequest X i) as [[isPR prId]|]; [|discriminate].
  cbn [bindR fst snd].
  destruct (required "subscriptionId" _) as [sub|]; [|discriminate].
  destruct (required "resourceGroup" _) as [rg|]; [|discriminate].
  destruct (required "location" _) as [loc|]; [|discriminate].
  destruct (required "name" _) as [nm|] eqn:En; [|discriminate].
  destruct (required "storageAccount" _) as [sa|] eqn:Es; [|discriminate].
  cbn [bindR].
  apply required_Ok in En, Es. destruct En as [En _], Es as [Es _].
  intros [= <-]. exists raw, isPR, prId, nm, sa.
  cbn [isPullRequest pullRequestId plan appSecretsJSON action name
       storageAccount assetsContainerName].
  repeat split; try assumption.
  destruct (pullRequestMode isPR prId); [destruct prId|]; reflexivity.
Qed.

(** [C2] In pull-request mode (the flag is set and the pull-request id is
    truthy), for every base function-app name and every pull-request id
    below [10^10] (at most 10 digits), the function-app name [loadConfig]
    derives is [trimmed ++ "-" ++ id], where [trimmed] is a prefix of the
    base name that does not end in a character outside [[a-zA-Z0-9]]; the
    derived name has at most 60 characters; the storage-account name is
    ["pr" ++ base] cut to at most 24 characters; the container name is
    [base ++ "-" ++ id].  The bound of 80 characters on the base name is
    not needed. *)
Theorem pull_request_names
    (X : Externals) (i : Inputs) (raw : RawConfig) (cfg : Config)
    (base account : string) (n : N) :
  parseConfiguration X (input_configuration i) = Ok raw ->
  loadConfig X i = Ok cfg ->
  raw_name raw = Some base ->
  raw_storageAccount raw = Some account ->
  String.length base <= 80 ->
  pullRequestMode (isPullRequest cfg) (pullRequestId cfg) = true ->
  pullRequestId cfg = Some n ->
  (n < 10 ^ 10)%N ->
  let trimmed := trimmedName base n in
  name cfg = trimmed ++ "-" ++ Js.Number_toString n
  /\ (exists rest, base = trimmed ++ rest)
  /\ (forall ch, Js.last_char trimmed = Some ch -> Js.alphanumeric ch = true)
  /\ String.length (name cfg) <= 60
  /\ storageAccount cfg = Js.substring0 24 ("pr" ++ account)
  /\ String.length (storageAccount cfg) <= 24
  /\ assetsContainerName cfg
     = defaulted "assets" (raw_assetsContainerName raw)
       ++ "-" ++ Js.Number_toString n.
Proof.
  intros Hparse Hload Hname Haccount _ Hmode Hid Hn trimmed.
  destruct (loadConfig_Ok X i cfg Hload)
    as (raw' & isPR & prId & nm & sa & Hp & _ & Hnm & Hsa & HisPR & HprId
        & _ & _ & _ & Hnames).
  rewrite Hparse in Hp. injection Hp as <-.
  rewrite Hname in Hnm. injection Hnm as <-.
  rewrite Haccount in Hsa. injection Hsa as <-.
  rewrite HisPR, HprId in Hmode. rewrite HprId in Hid. subst prId.
  rewrite Hmode in Hnames. injection Hnames as Hn1 Hn2 Hn3.
  assert (Hdigits : String.length (Js.Number_toString n) <= 10)
    by (apply length_Number_toString; [lia|exact Hn]).
  repeat split.
  - exact Hn1.
  - unfold trimmed, trimmedName.
    destruct (substring0_prefix
                (60 - String.length (pullRequestSuffix n)) base) as [r1 E1].
    destruct (replace_trailing_prefix
                (Js.substring0 (60 - String.length (pullRequestSuffix n)) base))
      as [r2 [E2 _]].
    exists (r2 ++ r1).
    rewrite E1 at 1. rewrite E2 at 1.
    clear. induction (Js.replace_trailing_non_alphanumeric _) as [|c s IH];
      simpl; [reflexivity|now rewrite IH].
  - intros ch. apply replace_trailing_last_char.
  - rewrite Hn1. unfold pullRequestName, trimmedName, pullRequestSuffix.
    rewrite !length_append.
    pose proof (length_replace_trailing
      (Js.substring0 (60 - (String.length "-" + String.length (Js.Number_toString n))) base)).
    pose proof (length_substring0
      (60 - (String.length "-" + String.length (Js.Number_toString n))) base).
    change (String.length "-") with 1 in *. lia.
  - exact Hn2.
  - rewrite Hn2. apply length_substring0.
  - exact Hn3.
Qed.

(** ** Traces *)

Lemma actions_app (t1 t2 : list Event) :
  actions (t1 ++ t2) = (actions t1 ++ actions t2)%list.
Proof.
  induction t1 as [|[msg|a r|ms|msg] t1 IH]; simpl; rewrite ?IH; reflexivity.
Qed.


Section Plans.

Variable env : Oracle.

Lemma attempts_log (msg : string) : attempts_in_order (log msg) [].
Proof. intros h. reflexivity. Qed.

Lemma attempts_ret : attempts_in_order (ret tt) [].
Proof. intros h. reflexivity. Qed.

Lemma attempts_perform (a : Action) :
  attempts_in_order (perform env a) [a].
Proof.
  intros h. unfold perform. destruct (env h a) as [e|].
  - exists [], a, []. split; reflexivity.
  - reflexivity.
Qed.

Lemma attempts_bind (m1 m2 : M unit) (p1 p2 : list Action) :
  attempts_in_order m1 p1 -> attempts_in_order m2 p2 ->
  attempts_in_order (m1;; m2) (p1 ++ p2).
Proof.
  intros H1 H2 h. unfold bind.
  specialize (H1 h). destruct (m1 h) as [[[]|e] evs1].
  - specialize (H2 (h ++ evs1)%list).
    destruct (m2 (h ++ evs1)%list) as [[[]|e] evs2].
    + rewrite actions_app, H1, H2, map_app. reflexivity.
    + destruct H2 as (done & a & rest & Hp & Ha).
      exists (p1 ++ done)%list, a, rest. split.
      * rewrite Hp, app_assoc. reflexivity.
      * rewrite actions_app, H1, Ha, map_app, app_assoc. reflexivity.
  - destruct H1 as (done & a & rest & Hp & Ha).
    exists done, a, (rest ++ p2)%list. split.
    + rewrite Hp, <- app_assoc. reflexivity.
    + exact Ha.
Qed.

Lemma attempts_forEach {A : Type} (xs : list A) (body : A -> M unit)
    (plan : A -> list Action) :
  (forall x, attempts_in_order (body x) (plan x)) ->
  attempts_in_order (forEach xs body) (flat_map plan xs).
Proof.
  intros Hbody. induction xs as [|x xs IH]; cbn [forEach flat_map].
  - apply attempts_ret.
  - apply attempts_bind; [apply Hbody|exact IH].
Qed.










End Plans.

(** ** Packaging *)

Lemma attempts_wrapPage (X : Externals) (env : Oracle) (page : Page) :
  attempts_in_order (wrapPage X env page) (handlerArtifacts X page).
Proof.
  unfold wrapPage, handlerArtifacts.
  apply (attempts_bind _ _ [_] [_; _]); [apply attempts_perform|].
  apply (attempts_bind _ _ [_] [_]); apply attempts_perform.
Qed.

Lemma attempts_copyStaticPage (X : Externals) (env : Oracle) (c : Config)
    (page : Page) :
  attempts_in_order (copyStaticPage X env c page) (staticPageCopy X c page).
Proof. apply attempts_perform. Qed.

Lemma attempts_package (X : Externals) (env : Oracle) (c : Config) :
  attempts_in_order (package X env c) (packagePlan X c).
Proof.
  unfold package, packagePlan, packageManifests, packageArchive.
  apply (attempts_bind _ _ [] _); [apply attempts_log|].
  apply (attempts_bind _ _ [] _); [apply attempts_log|].
  apply (attempts_bind _ _ [_] _); [apply attempts_perform|].
  apply (attempts_bind _ _ [] _); [apply attempts_log|].
  apply attempts_bind;
    [apply attempts_forEach; intros page; apply attempts_wrapPage|].
  apply (attempts_bind _ _ [] _); [apply attempts_log|].
  apply (attempts_bind _ _ [_] _); [apply attempts_perform|].
  apply (attempts_bind _ _ [] _); [apply attempts_log|].
  apply (attempts_bind _ _ [_] _); [apply attempts_perform|].
  apply (attempts_bind _ _ [] _); [apply attempts_log|].
  apply (attempts_bind _ _ [_] _); [apply attempts_perform|].
  apply attempts_bind;
    [apply attempts_forEach; intros page; apply attempts_copyStaticPage|].
  apply (attempts_bind _ _ [] _); [apply attempts_log|].
  apply (attempts_bind _ _ [_] [_; _]); [apply attempts_perform|].
  apply (attempts_bind _ _ [_] [_]); apply attempts_perform.
Qed.

(** [C5] For every page set, [package] writes handler artifacts (the copied
    module, [index.js] and [function.json]) for the pages of [handlerPages]
    and for no other page, before it writes the manifests and the archive;
    [handlerPages] holds exactly the scanned pages that are neither static
    nor special, so a page marked special never receives handler
    artifacts. *)
Theorem special_pages_get_no_handler
    (X : Externals) (env : Oracle) (c : Config) :
  let pages := scanPages X (sourcePath c) (buildPagesOutputPath c) in
  attempts_in_order (package X env c)
    (NextBuildInit (sourcePath c) (buildPagesOutputPath c)
     :: flat_map (handlerArtifacts X) (handlerPages pages)
     ++ packageManifests X c pages ++ packageArchive X c)
  /\ (forall page,
        In page (handlerPages pages)
        <-> In page pages /\ isStatic page = false /\ isSpecial page = false)
  /\ (forall page, isSpecial page = true -> ~ In page (handlerPages pages)).
Proof.
  intros pages. split; [apply attempts_package|].
  assert (Hiff : forall page,
             In page (handlerPages pages)
             <-> In page pages /\ isStatic page = false /\ isSpecial page = false).
  { intros page. unfold handlerPages. rewrite filter_In.
    rewrite andb_true_iff, !negb_true_iff. tauto. }
  split; [exact Hiff|].
  intros page Hspecial Hin. apply Hiff in Hin.
  destruct Hin as (_ & _ & Hin). congruence.
Qed.

(** ** Teardown *)

(** [C3], as the code has it: [clean] runs its four commands (delete the
    function app, delete the asset container, add the application-insights
    extension, delete the app-insights resource) in that order; the first
    command that fails ends the teardown: the later deletions are not
    attempted, and the error of that command is the one thrown. *)
Theorem clean_stops_at_first_failure (env : Oracle) (c : Config) :
  attempts_in_order (clean env c)
    [Exec (cmd_functionapp_delete c); Exec (cmd_container_delete c);
     Exec cmd_extension_add; Exec (cmd_app_insights_delete c)].
Proof.
  unfold clean, exec.
  apply (attempts_bind _ _ [] _); [apply attempts_log|].
  apply (attempts_bind _ _ [_] _); [apply attempts_perform|].
  apply (attempts_bind _ _ [] _); [apply attempts_log|].
  apply (attempts_bind _ _ [_] _); [apply attempts_perform|].
  apply (attempts_bind _ _ [_] _); [apply attempts_perform|].
  apply (attempts_bind _ _ [] _); [apply attempts_log|].
  apply attempts_perform.
Qed.

(** When the deletion of the function app fails, neither the container nor
    the app-insights resource is deleted, and the run fails with that one
    error. *)
Lemma clean_abandons_later_deletions :
  let c := Sample.config in
  let env := Sample.failing "az functionapp delete" in
  clean env c []
  = (Throw Sample.failure,
     [Log "Deleting function app 'my-next-app'...";
      Did (Exec (cmd_functionapp_delete c)) (Some Sample.failure)])
  /\ ~ In (cmd_container_delete c) (commands (snd (clean env c [])))
  /\ ~ In (cmd_app_insights_delete c) (commands (snd (clean env c []))).
Proof.
  vm_compute. repeat split; intros []; try discriminate; assumption.
Qed.

(** ** Deployment *)

Lemma createFunctionApp_command (env : Oracle) (c : Config) :
  createFunctionApp env c
  = try_catch
      (log (functionAppLabel c);; exec env (functionAppCommand c))
      (fun error => log "Unable to create function app";; throw error).
Proof.
  unfold createFunctionApp, functionAppLabel, functionAppCommand.
  destruct (Js.truthy_opt (plan c)); reflexivity.
Qed.

(** Symbolic execution: unfold the program, then ask the oracle for the
    outcome of each action in turn. *)
Ltac unfold_program :=
  cbv beta iota zeta delta
    [deploy createResourceGroup createStorageAccount createStorageContainer
     setContainerPermissions enablePackageDeploy
     uploadPackage uploadLoop uploadAssets uploadPublicAssets
     Initial.uploadPackage Initial.uploadLoop
     configureAppSettings clean checkAzureCliIsAvailable
     bind try_catch log sleep exec perform ret throw lift
     maxAttempts N.to_nat Pos.to_nat Pos.iter_op Nat.add
     N.leb N.compare N.add Pos.add Pos.compare Pos.compare_cont Pos.succ].

Ltac ask_oracle :=
  match goal with
  | |- context [match ?env ?h ?a with Some _ => _ | None => _ end] =>
      let E := fresh "E" in destruct (env h a) as [?e|] eqn:E
  end.

Ltac run_program :=
  unfold_program; rewrite ?createFunctionApp_command; unfold_program;
  repeat (ask_oracle; cbv beta iota zeta).

Ltac failed_at n :=
  solve [exists n; eexists; repeat split; try lia; reflexivity].

(** [C6] Whatever the commands answer, [deploy] runs the six provisioning
    commands (resource group, storage account, container, container
    permission, function app, run-from-package) in order and each at most
    once.  Either one of them fails with an error [e]: then the commands
    before it succeeded, nothing is attempted after it, and [deploy]
    throws that same [e]; or all six succeeded, each attempted exactly
    once, and everything attempted later is one of the three uploads. *)
Theorem provisioning_single_attempt
    (X : Externals) (env : Oracle) (c : Config) (h : list Event) :
  let (r, trace) := deploy X env c h in
  (exists n e,
      n < 6
      /\ actions trace
         = (map succeeded (map Exec (firstn n (provisioning c)))
            ++ [(Exec (nth n (provisioning c) EmptyString), Some e)])%list
      /\ r = Throw e)
  \/ (exists later,
        actions trace
        = (map succeeded (map Exec (provisioning c)) ++ later)%list
        /\ Forall (fun a => exists u, In u (uploads X c) /\ fst a = Exec u)
             later).
Proof.
  unfold provisioning, uploads.
  destruct (deploy X env c h) as [r trace] eqn:Hrun. revert Hrun.
  run_program; intros [= <- <-];
    cbn [fst snd app actions map firstn nth succeeded].
  all: try solve
    [right; eexists; split; [reflexivity|];
     repeat (constructor;
             [eexists; split; [|reflexivity]; cbn [In]; tauto|]);
     constructor].
  all: left;
    first [failed_at 0 | failed_at 1 | failed_at 2 | failed_at 3
          | failed_at 4 | failed_at 5].
Qed.

Ltac order_with k n :=
  exists k, n;
  split; [lia|];
  split; [cbn [List.length app repeat]; lia|];
  split; [reflexivity|];
  split; [cbn [failures_from List.length In]; intros i Hi; intuition lia|];
  split; [cbn [failures_from In]; intros i Hi; lia|];
  cbn [failures_from List.length In app repeat];
  first
    [ solve [split; [reflexivity|intros i Hi; intuition lia]]
    | solve [left; eexists; split; [reflexivity|]; split; [intuition lia|lia]]
    | solve [right; split; [reflexivity|]; split; [intros i Hi; intuition lia|];
             split; first [assumption | reflexivity]] ].

Ltac order_leaf :=
  match goal with
  | |- exists attempts executed, _ /\ _ /\ map fst ?L = _ /\ _ =>
      let n := eval cbn [List.length] in (List.length L) in
      first [ solve [order_with 1 n] | solve [order_with 2 n]
            | solve [order_with 3 n] ]
  end.

(** [C4] [deploy] followed by [configureAppSettings] (the deployment
    branch of [run]) executes its commands strictly in the order: resource
    group, storage account, container, container permission, function app
    (with the plan when one is configured, otherwise on the consumption
    plan: [functionAppCommand]), run-from-package, the package upload (one
    to three attempts), the asset tree, the public assets, the
    application settings (when the input is given).  The commands executed
    are the first [executed] of that sequence, each executed once.  An
    upload attempt that is retried failed; any other command that failed
    is the last one executed.  The sequence goes on as long as nothing
    fails: when the run returns, the whole sequence was executed, and when
    it throws, either the last command executed failed (a provisioning
    command, the third upload attempt, or a later step), or every command
    ran and the [app-settings] input did not parse. *)
Theorem deploy_order
    (X : Externals) (env : Oracle) (c : Config) (h : list Event) :
  let (r, trace) := (deploy X env c;; configureAppSettings X env c) h in
  exists attempts executed,
    1 <= attempts <= 3
    /\ executed <= List.length (deploymentSteps X c attempts)
    /\ map fst (actions trace)
       = map Exec (firstn executed (deploymentSteps X c attempts))
    /\ (forall i, In i (failures_from 0 (actions trace)) ->
          S i = List.length (actions trace) \/ 6 <= i < 5 + attempts)
    /\ (forall i, 6 <= i < 5 + attempts ->
          In i (failures_from 0 (actions trace)))
    /\ match r with
       | Ok _ =>
           executed = List.length (deploymentSteps X c attempts)
           /\ (forall i, In i (failures_from 0 (actions trace)) ->
                 6 <= i < 5 + attempts)
       | Throw e =>
           (exists n,
              executed = S n
              /\ In n (failures_from 0 (actions trace))
              /\ (n < 6 \/ (attempts = 3 /\ n = 8) \/ 5 + attempts < n))
           \/ (executed = List.length (deploymentSteps X c attempts)
               /\ (forall i, In i (failures_from 0 (actions trace)) ->
                     6 <= i < 5 + attempts)
               /\ Js.truthy (appSecretsJSON c) = true
               /\ parseAppSettings X (appSecretsJSON c) = Throw e)
       end.
Proof.
  unfold deploymentSteps, settingsCommands, provisioning.
  destruct ((deploy X env c;; configureAppSettings X env c) h)
    as [r trace] eqn:Hrun.
  revert Hrun. run_program.
  all: try (destruct (Js.truthy (appSecretsJSON c)) eqn:S;
            [destruct (parseAppSettings X (appSecretsJSON c))
               as [settings|pe] eqn:Q|];
            cbv beta iota zeta; try ask_oracle).
  all: intros [= <- <-]; cbn [fst snd app actions firstn repeat].
  all: order_leaf.
Qed.

(** ** The package upload *)

(** The current revision: at most three attempts, five seconds apart; the
    first success ends the loop, the third failure is fatal. *)
Lemma upload_retries
    (X : Externals) (env : Oracle) (c : Config) (h : list Event) :
  let zip := Exec (cmd_config_zip c (join X [buildOutputPath c; "package.zip"])) in
  let (r, trace) := uploadPackage X env c h in
  (r = Ok tt /\ effects trace = [Did zip None])
  \/ (exists e1,
        r = Ok tt
        /\ effects trace = [Did zip (Some e1); Sleep 5000; Did zip None])
  \/ (exists e1 e2,
        r = Ok tt
        /\ effects trace
           = [Did zip (Some e1); Sleep 5000; Did zip (Some e2); Sleep 5000;
              Did zip None])
  \/ (exists e1 e2 e3,
        r = Throw (Js.newError "Could not deploy package to Azure function app")
        /\ effects trace
           = [Did zip (Some e1); Sleep 5000; Did zip (Some e2); Sleep 5000;
              Did zip (Some e3)]).
Proof.
  intros zip. subst zip.
  destruct (uploadPackage X env c h) as [r trace] eqn:Hrun. revert Hrun.
  run_program; intros [= <- <-]; cbn [app effects].
  - right; right; right. now exists e, e0, e1.
  - right; right; left. now exists e, e0.
  - right; left. now exists e.
  - left. now split.
Qed.

(** Three iterations are all the loop can make: more fuel changes
    nothing. *)
Lemma uploadLoop_fuel
    (env : Oracle) (c : Config) (path : string) (fuel : nat) (h : list Event) :
  uploadLoop env (3 + fuel) c path 1 h = uploadLoop env 3 c path 1 h.
Proof.
  destruct fuel as [|fuel]; [reflexivity|].
  cbn [Nat.add].
  cbv beta iota zeta delta
    [uploadLoop bind try_catch log sleep exec perform ret throw
     maxAttempts N.leb N.compare N.add Pos.add Pos.compare Pos.compare_cont
     Pos.succ].
  repeat (ask_oracle; cbv beta iota zeta); reflexivity.
Qed.

Lemma sleep_is_unbound {A : Type} (value : A) :
  identifier Initial.deploy_bindings "sleep" value
  = Throw (Js.ReferenceError "sleep").
Proof. reflexivity. Qed.

(** [C1] on the first revision ([src/src/index.js]): the upload is
    attempted once.  When that attempt fails, the handler evaluates the
    unbound identifier [sleep]: a [ReferenceError] leaves [deploy], there
    is no wait and no second attempt. *)
Theorem initial_upload_never_retries
    (X : Externals) (env : Oracle) (c : Config) (buildOutputPath : string)
    (h : list Event) :
  let zip := Exec (cmd_config_zip c (join X [buildOutputPath; "package.zip"])) in
  let (r, trace) := Initial.uploadPackage X env c buildOutputPath h in
  (r = Ok tt /\ effects trace = [Did zip None])
  \/ (exists e1,
        r = Throw (Js.ReferenceError "sleep")
        /\ effects trace = [Did zip (Some e1)]).
Proof.
  intros zip. subst zip.
  destruct (Initial.uploadPackage X env c buildOutputPath h)
    as [r trace] eqn:Hrun.
  revert Hrun. unfold_program.
  ask_oracle; cbv beta iota zeta; rewrite ?sleep_is_unbound;
    intros [= <- <-]; cbn [app effects].
  - right. now exists e.
  - left. now split.
Qed.

(** Two transient failures: the current revision uploads at the third
    attempt, the first revision gives up at the first. *)
Lemma upload_after_two_failures :
  let env := Sample.failingFirst 2 "az functionapp deployment" in
  let zip := Exec (cmd_config_zip Sample.config "/ws/build/package.zip") in
  (fst (uploadPackage Sample.externals env Sample.config []) = Ok tt
   /\ effects (snd (uploadPackage Sample.externals env Sample.config []))
      = [Did zip (Some Sample.failure); Sleep 5000;
         Did zip (Some Sample.failure); Sleep 5000; Did zip None])
  /\ (fst (Initial.uploadPackage Sample.externals env Sample.config "/ws/build" [])
      = Throw (Js.ReferenceError "sleep")
      /\ effects (snd (Initial.uploadPackage Sample.externals env
                         Sample.config "/ws/build" []))
         = [Did zip (Some Sample.failure)]).
Proof. vm_compute. repeat split. Qed.

(** ** The package manifest *)

(** [C7], as the code has it: [package] archives the function tree into
    [package.zip] under the build output path and then writes the
    manifest [packagename.txt], whose whole content is that file name
    (one line, no line break); [deploy] reads no file: every action it
    performs is a command drawn from a list fixed by the configuration, in
    which the archive is [package.zip] under the build output path,
    whatever the manifest holds. *)
Theorem manifest_written_not_read
    (X : Externals) (env : Oracle) (c : Config) :
  attempts_in_order (package X env c) (packagePlan X c)
  /\ (exists before,
        packagePlan X c
        = (before
           ++ [Archive (join X [buildOutputPath c; "package.zip"])
                 (buildPagesOutputPath c) "package.zip";
               WriteFile (join X [buildOutputPath c; "packagename.txt"])
                 "package.zip";
               Remove (buildPagesOutputPath c)])%list)
  /\ (forall ch, In ch (list_ascii_of_string "package.zip") -> ch <> "010"%char)
  /\ (forall h,
        Forall
          (fun a =>
             exists cmd,
               fst a = Exec cmd
               /\ In cmd
                    (provisioning c
                     ++ [cmd_config_zip c (join X [buildOutputPath c; "package.zip"]);
                         cmd_upload_assets c; cmd_upload_public X c])%list)
          (actions (snd (deploy X env c h)))).
Proof.
  split; [apply attempts_package|]. split; [|split].
  - unfold packagePlan, packageArchive.
    eexists (_ :: _ ++ _)%list. cbn [app].
    rewrite <- app_assoc. reflexivity.
  - cbn. intros ch H. intuition (subst; discriminate).
  - intros h. unfold provisioning.
    destruct (deploy X env c h) as [r trace] eqn:Hrun. revert Hrun.
    run_program; intros [= <- <-]; cbn [fst snd app actions].
    all: repeat (constructor;
                 [eexists; split; [reflexivity|]; cbn [In app]; tauto|]).
    all: constructor.
Qed.

(** A history in which the manifest names another archive: [deploy] still
    uploads [package.zip]. *)
Lemma deploy_ignores_manifest :
  let X := Sample.externals in
  let c := Sample.config in
  let h := [Did (WriteFile "/ws/build/packagename.txt" "other.zip") None] in
  last_written h (join X [buildOutputPath c; "packagename.txt"])
  = Some "other.zip"
  /\ nth_error (commands (snd (deploy X Sample.allSucceed c h))) 6
     = Some (cmd_config_zip c "/ws/build/package.zip")
  /\ cmd_config_zip c "/ws/build/package.zip"
     <> cmd_config_zip c (join X [buildOutputPath c; "other.zip"]).
Proof. vm_compute. repeat split. discriminate. Qed.

(** ** Application settings *)

Lemma append_assoc (a b c : string) : (a ++ b) ++ c = a ++ (b ++ c).
Proof. induction a as [|ch a IH]; simpl; [reflexivity|now rewrite IH]. Qed.

Lemma append_empty_r (a : string) : a ++ EmptyString = a.
Proof. induction a as [|ch a IH]; simpl; [reflexivity|now rewrite IH]. Qed.

Lemma property_NoDup (o : list (string * string)) (k v : string) :
  NoDup (Object_keys o) -> In (k, v) o -> property o k = v.
Proof.
  unfold Object_keys.
  induction o as [|[k' v'] o IH]; intros Hnd Hin; [destruct Hin|].
  cbn [property]. inversion Hnd as [|? ? Hnot Hnd']; subst.
  destruct Hin as [[= -> ->]|Hin].
  - now rewrite String.eqb_refl.
  - destruct (String.eqb_spec k' k) as [->|_].
    + exfalso. apply Hnot. change k with (fst (k, v)). now apply in_map.
    + now apply IH.
Qed.

Lemma fold_settings (o pairs : list (string * string)) (acc : string) :
  (forall k v, In (k, v) pairs -> property o k = v) ->
  fold_left
    (fun settings key => settings ++ key ++ "=" ++ property o key ++ " ")
    (map fst pairs) acc
  = acc ++ renderSettings pairs.
Proof.
  revert acc; induction pairs as [|[k v] pairs IH]; intros acc H.
  - cbn. now rewrite append_empty_r.
  - cbn [map fst fold_left renderSettings].
    rewrite IH by (intros; apply H; now right).
    rewrite (H k v) by now left.
    now rewrite !append_assoc.
Qed.

Lemma formatAppSettings_render (appSettings : list (string * string)) :
  NoDup (Object_keys appSettings) ->
  formatAppSettings appSettings = renderSettings appSettings.
Proof.
  intros Hnd. unfold formatAppSettings, Object_keys.
  rewrite fold_settings; [reflexivity|].
  intros k v. now apply property_NoDup.
Qed.

Lemma split_word (w rest : string) :
  free_of " " w = true ->
  split " " (w ++ " " ++ rest) = w :: split " " rest.
Proof.
  induction w as [|ch w IH]; intros H; [reflexivity|].
  cbn [free_of] in H. apply andb_true_iff in H. destruct H as [Hc Hw].
  apply negb_true_iff in Hc.
  cbn [append split]. rewrite Hc. change (String " " rest) with (" " ++ rest).
  now rewrite (IH Hw).
Qed.

Lemma free_of_append (ch : ascii) (a b : string) :
  free_of ch (a ++ b) = free_of ch a && free_of ch b.
Proof.
  induction a as [|c a IH]; [reflexivity|].
  cbn [append free_of]. rewrite IH. now rewrite andb_assoc.
Qed.

Lemma cut_key (k v : string) :
  free_of "=" k = true -> cut "=" (k ++ "=" ++ v) = Some (k, v).
Proof.
  induction k as [|ch k IH]; intros H; [reflexivity|].
  cbn [free_of] in H. apply andb_true_iff in H. destruct H as [Hc Hk].
  apply negb_true_iff in Hc.
  cbn [append cut]. rewrite Hc.
  change (String "=" v) with ("=" ++ v). now rewrite (IH Hk).
Qed.

Lemma word_not_empty (k v : string) :
  (k ++ "=" ++ v =? EmptyString) = false.
Proof. destruct k; reflexivity. Qed.

Lemma decode_render (pairs : list (string * string)) :
  plain pairs -> decode (renderSettings pairs) = pairs.
Proof.
  unfold decode, words.
  induction pairs as [|[k v] pairs IH]; intros Hplain; [reflexivity|].
  destruct (Hplain k v (or_introl eq_refl)) as (Hk1 & Hk2 & Hv).
  cbn [renderSettings].
  rewrite <- (append_assoc k "=" _), <- (append_assoc (k ++ "=") v _).
  rewrite split_word.
  - rewrite (append_assoc k "=" v).
    cbn [filter]. rewrite word_not_empty. cbn [negb flat_map].
    rewrite cut_key by exact Hk2. cbn [app].
    f_equal. apply IH. intros k' v' Hin. apply Hplain. now right.
  - rewrite !free_of_append, Hk1, Hv. reflexivity.
Qed.

(** [C8], as the code has it: when the [app-settings] input is given and
    parses to an object with the distinct keys [Object.keys] enumerates,
    [configureAppSettings] runs a single command whose [--settings]
    argument is the concatenation, in key order, of [key=value] followed
    by a space, without quoting; when no key holds a space or [=] and no
    value holds a space, the space-separated [KEY=VALUE] words of that
    argument are exactly the pairs of the input. *)
Theorem app_settings_command
    (X : Externals) (env : Oracle) (c : Config)
    (appSettings : list (string * string)) (h : list Event) :
  Js.truthy (appSecretsJSON c) = true ->
  parseAppSettings X (appSecretsJSON c) = Ok appSettings ->
  NoDup (Object_keys appSettings) ->
  commands (snd (configureAppSettings X env c h))
  = ["az functionapp config appsettings set --settings "
     ++ formatAppSettings appSettings
     ++ " --resource-group " ++ resourceGroup c ++ " --name " ++ name c]
  /\ formatAppSettings appSettings = renderSettings appSettings
  /\ (plain appSettings -> decode (formatAppSettings appSettings) = appSettings).
Proof.
  intros Htruthy Hparse Hnd. split; [|split].
  - unfold configureAppSettings. rewrite Htruthy.
    unfold_program. rewrite Hparse. cbv beta iota zeta.
    ask_oracle; reflexivity.
  - now apply formatAppSettings_render.
  - intros Hplain. rewrite formatAppSettings_render by exact Hnd.
    now apply decode_render.
Qed.

(** Two different settings objects give the same command line, so no
    reading of the command line gives back every input: a value with a
    space in it is not applied as it was given. *)
Lemma app_settings_not_verbatim :
  formatAppSettings [("A", "1 B=2")] = formatAppSettings [("A", "1"); ("B", "2")]
  /\ decode (formatAppSettings [("A", "1 B=2")]) = [("A", "1"); ("B", "2")]
  /\ ~ (exists applied : string -> list (string * string),
          forall appSettings,
            NoDup (Object_keys appSettings) ->
            applied (cmd_appsettings Sample.config (formatAppSettings appSettings))
            = appSettings).
Proof.
  split; [reflexivity|]. split; [reflexivity|].
  intros [applied H].
  assert (N1 : NoDup (Object_keys [("A", "1 B=2")]))
    by (repeat constructor; cbn; intuition discriminate).
  assert (N2 : NoDup (Object_keys [("A", "1"); ("B", "2")]))
    by (repeat constructor; cbn; intuition discriminate).
  pose proof (H _ N1) as H1. pose proof (H _ N2) as H2.
  assert (E : formatAppSettings [("A", "1 B=2")]
              = formatAppSettings [("A", "1"); ("B", "2")]) by reflexivity.
  rewrite E, H2 in H1. discriminate H1.
Qed.

(** ** The outcome of a run *)






Lemma run_of_body (X : Externals) (env : Oracle) (i : Inputs) :
  run X env i []
  = match run_body X env i [] with
    | (Ok a, body) => (Ok a, body)
    | (Throw e, body) => (Ok tt, (body ++ [SetFailed (Js.message e)])%list)
    end.
Proof.
  unfold run, try_catch, setFailed.
  destruct (run_body X env i []) as [[a|e] body]; reflexivity.
Qed.

(** Where a run stops. *)

Section Stops.

Variable retried : Action -> Prop.
Variable other : Js.Error -> Prop.




End Stops.















(** ** The pull-request input on another event *)

Lemma eventName_is_unbound {A : Type} (value : A) :
  identifier loadConfig_bindings "eventName" value
  = Throw (Js.ReferenceError "eventName")
  /\ identifier Previous.getIsPullRequest_bindings "eventName" value
     = Throw (Js.ReferenceError "eventName").
Proof. split; reflexivity. Qed.

Lemma run_loadConfig_throws
    (X : Externals) (env : Oracle) (i : Inputs) (e : Js.Error) :
  loadConfig X i = Throw e ->
  run X env i [] = (Ok tt, [SetFailed (Js.message e)]).
Proof.
  intros H. unfold run, run_body, try_catch, bind, lift, setFailed.
  rewrite H. reflexivity.
Qed.

Lemma loadConfig_rejects_other_event (X : Externals) (i : Inputs) :
  Js.truthy (input_pull_request i) = true ->
  parseFlag X (input_pull_request i) = Ok true ->
  ctx_eventName (context i) <> "pull_request" ->
  exists e, loadConfig X i = Throw e.
Proof.
  intros Htruthy Hflag Hevent.
  unfold loadConfig.
  destruct (negb (Js.truthy (input_configuration i))); [eauto|].
  destruct (parseConfiguration X (input_configuration i)) as [raw|e];
    [|cbn; eauto].
  cbn [bindR]. unfold loadPullRequest.
  rewrite Htruthy, Hflag. cbn [bindR].
  apply String.eqb_neq in Hevent. rewrite Hevent. cbn [negb].
  rewrite (proj1 (eventName_is_unbound _)). cbn. eauto.
Qed.

(** [C10] When the [pull-request] input is true and the event is not
    [pull_request], the run fails, in the current revision and in the
    previous one.  The check meant to reject the run builds its message
    from the identifier [eventName], which is not bound: in the previous
    revision [getIsPullRequest] throws a [ReferenceError], and so does
    [loadConfig] in the current one once the configuration input has been
    parsed; the failure reported is [eventName is not defined], not the
    message that names the actual event. *)
Theorem pull_request_on_other_event
    (X : Externals) (env : Oracle) (i : Inputs) :
  Js.truthy (input_pull_request i) = true ->
  parseFlag X (input_pull_request i) = Ok true ->
  ctx_eventName (context i) <> "pull_request" ->
  exitCode (trace_of_run X env i) = 1%N
  /\ Previous.getIsPullRequest X i = Throw (Js.ReferenceError "eventName")
  /\ (forall remainder,
        Previous.run X i remainder []
        = (Ok tt, [SetFailed "eventName is not defined"]))
  /\ (forall raw,
        Js.truthy (input_configuration i) = true ->
        parseConfiguration X (input_configuration i) = Ok raw ->
        loadConfig X i = Throw (Js.ReferenceError "eventName")
        /\ trace_of_run X env i = [SetFailed "eventName is not defined"])
  /\ Js.ReferenceError "eventName"
     <> Js.newError
          ("Unable to run in pull request mode when event is not 'pull_request'. Actual event: "
           ++ ctx_eventName (context i)).
Proof.
  intros Htruthy Hflag Hevent.
  pose proof Hevent as Hneq. apply String.eqb_neq in Hneq.
  assert (Hprev : Previous.getIsPullRequest X i
                  = Throw (Js.ReferenceError "eventName")).
  { unfold Previous.getIsPullRequest. rewrite Htruthy, Hflag.
    cbn [bindR]. rewrite Hneq. cbn [negb andb].
    rewrite (proj2 (eventName_is_unbound _)). reflexivity. }
  split; [|split; [exact Hprev|split; [|split]]].
  - destruct (loadConfig_rejects_other_event X i Htruthy Hflag Hevent)
      as [e He].
    unfold trace_of_run. rewrite (run_loadConfig_throws X env i e He).
    reflexivity.
  - intros remainder.
    unfold Previous.run, try_catch, bind, lift, setFailed.
    rewrite Hprev. reflexivity.
  - intros raw Hconf Hparse.
    assert (Hload : loadConfig X i = Throw (Js.ReferenceError "eventName")).
    { unfold loadConfig. rewrite Hconf, Hparse. cbn [negb bindR].
      unfold loadPullRequest. rewrite Htruthy, Hflag. cbn [bindR].
      rewrite Hneq. cbn [negb].
      rewrite (proj1 (eventName_is_unbound _)). reflexivity. }
    split; [exact Hload|].
    unfold trace_of_run. rewrite (run_loadConfig_throws X env i _ Hload).
    reflexivity.
  - discriminate.
Qed.

(** ** The sample workflow, evaluated *)

(** The pages of the sample: the static index page is copied to the asset
    tree, the dynamic page gets its handler, and nothing is written for
    the special [_app] page. *)
Lemma sample_package :
  fst (package Sample.externals Sample.allSucceed Sample.config []) = Ok tt
  /\ map fst (actions (snd (package Sample.externals Sample.allSucceed
                              Sample.config [])))
     = [NextBuildInit "/ws" "/ws/build/pages";
        Copy "/ws/.next/serverless/pages/[id].js" "/ws/build/pages/id/id.js";
        WriteFile "/ws/build/pages/id/index.js"
          "module.exports = require('./id.js');";
        WriteFile "/ws/build/pages/id/function.json" "{ scriptFile: 'id.js' }";
        WriteFile "/ws/build/pages/proxies.json"
          "{ assets: 'https://mynextstore.blob.core.windows.net/assets/' }";
        WriteFile "/ws/build/pages/host.json" "{ version: '2.0' }";
        Copy "/ws/.next/static" "/ws/build/assets/static";
        Copy "/ws/.next/serverless/pages/index.html"
          "/ws/build/assets/pages/index.html";
        Archive "/ws/build/package.zip" "/ws/build/pages" "package.zip";
        WriteFile "/ws/build/packagename.txt" "package.zip";
        Remove "/ws/build/pages"].
Proof. vm_compute. split; reflexivity. Qed.

(** A push on which everything succeeds. *)
Lemma sample_push :
  let trace := trace_of_run Sample.externals Sample.allSucceed Sample.push in
  exitCode trace = 0%N
  /\ In (Log "Successfully deployed to https://my-next-app.azurewebsites.net/")
        trace
  /\ commands trace
     = ["az --version";
        "az group create --subscription sub-1 --name rg-web --location westeurope";
        "az storage account create --subscription sub-1 --name mynextstore --location westeurope --resource-group rg-web --kind StorageV2 --sku Standard_LRS";
        "az storage container create --subscription sub-1 --name assets --account-name mynextstore";
        "az storage container set-permission --public-access blob --subscription sub-1 --account-name mynextstore --name assets";
        "az functionapp create --subscription sub-1 --resource-group rg-web --consumption-plan-location westeurope   --name my-next-app --storage-account mynextstore --runtime node";
        "az functionapp config appsettings set --settings WEBSITE_RUN_FROM_PACKAGE=1 --resource-group rg-web --name my-next-app";
        "az functionapp deployment source config-zip --subscription sub-1 -n my-next-app -g rg-web --src /ws/build/package.zip";
        "az storage blob upload-batch --subscription sub-1 --account-name mynextstore --destination assets --destination-path _next --source /ws/build/assets";
        "az storage blob upload-batch --subscription sub-1 --account-name mynextstore --destination assets --destination-path public --source /ws/public";
        "az functionapp config appsettings set --settings COSMOS_ENDPOINT=https://db.example  --resource-group rg-web --name my-next-app"].
Proof.
  cbv zeta. split; [vm_compute; reflexivity|].
  split; [vm_compute; tauto|vm_compute; reflexivity].
Qed.

(** A pull request whose base name has 80 characters. *)
Lemma sample_pull_request :
  loadConfig (Sample.externals_for Sample.longRaw) Sample.opened
  = Ok Sample.longConfig.
Proof. vm_compute. reflexivity. Qed.

(** Rendering a pull-request id. *)
Lemma sample_Number_toString :
  Js.Number_toString 1234567890 = "1234567890"
  /\ Js.Number_toString 0 = "0"
  /\ Js.Number_toString 9999999999 = "9999999999".
Proof. vm_compute. repeat split. Qed.

Lemma pull_request_names_witness :
  name Sample.longConfig
  = "contoso-marketing-website-frontend-next-js-prev-1234567890"
  /\ String.length (name Sample.longConfig) <= 60
  /\ storageAccount Sample.longConfig = "prcontosomarketingwebsit"
  /\ String.length (storageAccount Sample.longConfig) <= 24
  /\ assetsContainerName Sample.longConfig = "assets-1234567890".
Proof.
  destruct
    (pull_request_names (Sample.externals_for Sample.longRaw) Sample.opened
       Sample.longRaw Sample.longConfig Sample.longName
       "contosomarketingwebsitestore" 1234567890%N)
    as (H1 & _ & _ & H2 & H3 & H4 & H5).
  - reflexivity.
  - vm_compute. reflexivity.
  - reflexivity.
  - reflexivity.
  - vm_compute. lia.
  - vm_compute. reflexivity.
  - reflexivity.
  - vm_compute. reflexivity.
  - split; [reflexivity|]. split; [exact H2|]. split; [reflexivity|].
    split; [exact H4|reflexivity].
Defined.

Lemma app_settings_command_witness :
  commands (snd (configureAppSettings Sample.externals Sample.allSucceed
                   Sample.config []))
  = ["az functionapp config appsettings set --settings COSMOS_ENDPOINT=https://db.example  --resource-group rg-web --name my-next-app"]
  /\ decode (formatAppSettings [("COSMOS_ENDPOINT", "https://db.example")])
     = [("COSMOS_ENDPOINT", "https://db.example")].
Proof.
  destruct
    (app_settings_command Sample.externals Sample.allSucceed Sample.config
       [("COSMOS_ENDPOINT", "https://db.example")] [])
    as (H1 & _ & H3).
  - reflexivity.
  - reflexivity.
  - repeat constructor. simpl. tauto.
  - split; [reflexivity|]. apply H3.
    intros k v [[= <- <-]|[]]. vm_compute. repeat split.
Defined.

Lemma pull_request_on_other_event_witness :
  exitCode (trace_of_run Sample.externals Sample.allSucceed Sample.misconfigured)
  = 1%N
  /\ Previous.getIsPullRequest Sample.externals Sample.misconfigured
     = Throw (Js.ReferenceError "eventName")
  /\ trace_of_run Sample.externals Sample.allSucceed Sample.misconfigured
     = [SetFailed "eventName is not defined"].
Proof.
  destruct
    (pull_request_on_other_event Sample.externals Sample.allSucceed
       Sample.misconfigured)
    as (H1 & H2 & _ & H4 & _).
  - reflexivity.
  - reflexivity.
  - discriminate.
  - split; [exact H1|]. split; [exact H2|].
    apply (H4 Sample.raw); reflexivity.
Defined.

(** * Further properties *)

(** ** Validation of the configuration *)

(** What a successful [loadConfig] went through, and the record it
    built. *)
Lemma loadConfig_inversion (X : Externals) (i : Inputs) (c : Config) :
  loadConfig X i = Ok c ->
  exists raw isPR prId sub rg loc nm sa,
    Js.truthy (input_configuration i) = true
    /\ parseConfiguration X (input_configuration i) = Ok raw
    /\ loadPullRequest X i = Ok (isPR, prId)
    /\ required "subscriptionId" (raw_subscriptionId raw) = Ok sub
    /\ required "resourceGroup" (raw_resourceGroup raw) = Ok rg
    /\ required "location" (raw_location raw) = Ok loc
    /\ required "name" (raw_name raw) = Ok nm
    /\ required "storageAccount" (raw_storageAccount raw) = Ok sa
    /\ subscriptionId c = sub /\ resourceGroup c = rg /\ location c = loc
    /\ isPullRequest c = isPR /\ pullRequestId c = prId
    /\ buildOutputDir c = defaulted "build" (raw_buildOutputDir raw)
    /\ action c = ctx_action (context i)
    /\ (name c, storageAccount c, assetsContainerName c)
       = if pullRequestMode isPR prId then
           match prId with
           | Some n =>
               (pullRequestName nm n, pullRequestStorageAccount sa,
                pullRequestContainer
                  (defaulted "assets" (raw_assetsContainerName raw)) n)
           | None =>
               (nm, sa, defaulted "assets" (raw_assetsContainerName raw))
           end
         else (nm, sa, defaulted "assets" (raw_assetsContainerName raw)).
Proof.
  unfold loadConfig.
  destruct (Js.truthy (input_configuration i)) eqn:Hin; [|discriminate].
  cbn [negb].
  destruct (parseConfiguration X (input_configuration i)) as [raw|];
    [|discriminate].
  cbn [bindR].
  destruct (loadPullRequest X i) as [[isPR prId]|]; [|discriminate].
  cbn [bindR fst snd].
  destruct (required "subscriptionId" _) as [sub|] eqn:E1; [|discriminate].
  destruct (required "resourceGroup" _) as [rg|] eqn:E2; [|discriminate].
  destruct (required "location" _) as [loc|] eqn:E3; [|discriminate].
  destruct (required "name" _) as [nm|] eqn:E4; [|discriminate].
  destruct (required "storageAccount" _) as [sa|] eqn:E5; [|discriminate].
  cbn [bindR]. intros [= <-].
  exists raw, isPR, prId, sub, rg, loc, nm, sa.
  cbn [subscriptionId resourceGroup location isPullRequest pullRequestId
       buildOutputDir action name storageAccount assetsContainerName].
  repeat (split; [first [reflexivity | assumption]|]).
  destruct (pullRequestMode isPR prId); [destruct prId|]; reflexivity.
Qed.

Lemma required_missing (field : string) (v : option string) :
  Js.truthy_opt v = false ->
  required field v
  = Throw (Js.newError ("Configuration value is missing: " ++ field)).
Proof.
  unfold required. destruct v as [s|]; [|reflexivity].
  cbn [Js.truthy_opt]. now intros ->.
Qed.

Lemma required_present (field : string) (v : option string) :
  Js.truthy_opt v = true -> exists s, required field v = Ok s.
Proof.
  unfold required. destruct v as [s|]; [|discriminate].
  cbn [Js.truthy_opt]. intros ->. now exists s.
Qed.

(** [X1] Once the configuration input is parsed and the pull-request
    section has passed, [loadConfig] succeeds exactly when the five
    required fields are present and not empty; otherwise the error names
    the first missing field in the order subscriptionId, resourceGroup,
    location, name, storageAccount, and the run reports it without having
    executed any command. *)
Theorem first_missing_field_is_reported
    (X : Externals) (env : Oracle) (i : Inputs) (raw : RawConfig)
    (pr : bool * option N) :
  Js.truthy (input_configuration i) = true ->
  parseConfiguration X (input_configuration i) = Ok raw ->
  loadPullRequest X i = Ok pr ->
  match find missing (requiredFields raw) with
  | Some (field, _) =>
      loadConfig X i
      = Throw (Js.newError ("Configuration value is missing: " ++ field))
      /\ trace_of_run X env i
         = [SetFailed ("Configuration value is missing: " ++ field)]
  | None => exists c, loadConfig X i = Ok c
  end.
Proof.
  intros Hin Hparse Hpr.
  assert (Hrun : forall field,
            loadConfig X i
            = Throw (Js.newError ("Configuration value is missing: " ++ field)) ->
            loadConfig X i
            = Throw (Js.newError ("Configuration value is missing: " ++ field))
            /\ trace_of_run X env i
               = [SetFailed ("Configuration value is missing: " ++ field)]).
  { intros field H. split; [exact H|].
    unfold trace_of_run. now rewrite (run_loadConfig_throws X env i _ H). }
  unfold requiredFields, missing. cbn [find snd].
  destruct (Js.truthy_opt (raw_subscriptionId raw)) eqn:H1; cbn [negb];
    [|apply Hrun; unfold loadConfig; rewrite Hin, Hparse, Hpr;
      cbn [negb bindR]; rewrite (required_missing _ _ H1); reflexivity].
  destruct (Js.truthy_opt (raw_resourceGroup raw)) eqn:H2; cbn [negb];
    [|apply Hrun; unfold loadConfig; rewrite Hin, Hparse, Hpr;
      cbn [negb bindR];
      destruct (required_present "subscriptionId" _ H1) as [? ->];
      cbn [bindR]; rewrite (required_missing _ _ H2); reflexivity].
  destruct (Js.truthy_opt (raw_location raw)) eqn:H3; cbn [negb];
    [|apply Hrun; unfold loadConfig; rewrite Hin, Hparse, Hpr;
      cbn [negb bindR];
      destruct (required_present "subscriptionId" _ H1) as [? ->];
      destruct (required_present "resourceGroup" _ H2) as [? ->];
      cbn [bindR]; rewrite (required_missing _ _ H3); reflexivity].
  destruct (Js.truthy_opt (raw_name raw)) eqn:H4; cbn [negb];
    [|apply Hrun; unfold loadConfig; rewrite Hin, Hparse, Hpr;
      cbn [negb bindR];
      destruct (required_present "subscriptionId" _ H1) as [? ->];
      destruct (required_present "resourceGroup" _ H2) as [? ->];
      destruct (required_present "location" _ H3) as [? ->];
      cbn [bindR]; rewrite (required_missing _ _ H4); reflexivity].
  destruct (Js.truthy_opt (raw_storageAccount raw)) eqn:H5; cbn [negb];
    [|apply Hrun; unfold loadConfig; rewrite Hin, Hparse, Hpr;
      cbn [negb bindR];
      destruct (required_present "subscriptionId" _ H1) as [? ->];
      destruct (required_present "resourceGroup" _ H2) as [? ->];
      destruct (required_present "location" _ H3) as [? ->];
      destruct (required_present "name" _ H4) as [? ->];
      cbn [bindR]; rewrite (required_missing _ _ H5); reflexivity].
  unfold loadConfig; rewrite Hin, Hparse, Hpr; cbn [negb bindR].
  destruct (required_present "subscriptionId" _ H1) as [? ->].
  destruct (required_present "resourceGroup" _ H2) as [? ->].
  destruct (required_present "location" _ H3) as [? ->].
  destruct (required_present "name" _ H4) as [? ->].
  destruct (required_present "storageAccount" _ H5) as [? ->].
  cbn [bindR]. eexists. reflexivity.
Qed.

Lemma first_missing_field_is_reported_witness :
  loadConfig (Sample.externals_for Scenario.incompleteRaw) Sample.push
  = Throw (Js.newError "Configuration value is missing: location")
  /\ trace_of_run (Sample.externals_for Scenario.incompleteRaw)
       Sample.allSucceed Sample.push
     = [SetFailed "Configuration value is missing: location"].
Proof.
  apply (first_missing_field_is_reported
           (Sample.externals_for Scenario.incompleteRaw) Sample.allSucceed
           Sample.push Scenario.incompleteRaw (false, None));
    reflexivity.
Defined.

Lemma truthy_append_r (a b : string) :
  Js.truthy b = true -> Js.truthy (a ++ b) = true.
Proof.
  unfold Js.truthy. destruct a; [trivial|reflexivity].
Qed.

(** [X2] Every configuration [loadConfig] returns has a non-empty
    subscription id, resource group, location, function-app name,
    storage-account name, build output directory and container name, in
    pull-request mode as well as outside it: no command line is built
    with an empty name. *)
Theorem loaded_names_are_not_empty (X : Externals) (i : Inputs) (c : Config) :
  loadConfig X i = Ok c ->
  Js.truthy (subscriptionId c) = true
  /\ Js.truthy (resourceGroup c) = true
  /\ Js.truthy (location c) = true
  /\ Js.truthy (name c) = true
  /\ Js.truthy (storageAccount c) = true
  /\ Js.truthy (buildOutputDir c) = true
  /\ Js.truthy (assetsContainerName c) = true.
Proof.
  intros H.
  destruct (loadConfig_inversion X i c H)
    as (raw & isPR & prId & sub & rg & loc & nm & sa & _ & _ & _
        & R1 & R2 & R3 & R4 & R5 & -> & -> & -> & _ & _ & Hdir & _ & Hnames).
  apply required_Ok in R1, R2, R3, R4, R5.
  assert (Hdef : forall d v, Js.truthy d = true -> Js.truthy (defaulted d v) = true).
  { intros d v Hd. unfold defaulted. destruct v as [s|]; [|exact Hd].
    destruct (Js.truthy s) eqn:E; assumption. }
  repeat split; try tauto.
  - destruct (pullRequestMode isPR prId); [destruct prId as [n|]|];
      injection Hnames as -> _ _; try tauto.
    unfold pullRequestName. now apply truthy_append_r.
  - destruct (pullRequestMode isPR prId); [destruct prId as [n|]|];
      injection Hnames as _ -> _; try tauto; reflexivity.
  - rewrite Hdir. now apply Hdef.
  - destruct (pullRequestMode isPR prId); [destruct prId as [n|]|];
      injection Hnames as _ _ ->; try (now apply Hdef).
    unfold pullRequestContainer. now apply truthy_append_r.
Qed.

Lemma loadPullRequest_true (X : Externals) (i : Inputs) (prId : option N) :
  loadPullRequest X i = Ok (true, prId) ->
  Js.truthy (input_pull_request i) = true
  /\ parseFlag X (input_pull_request i) = Ok true
  /\ ctx_eventName (context i) = "pull_request"
  /\ exists pr, ctx_pull_request (context i) = Some pr /\ prId = Some (id pr).
Proof.
  unfold loadPullRequest.
  destruct (Js.truthy (input_pull_request i)); [|discriminate].
  destruct (parseFlag X (input_pull_request i)) as [[|]|]; cbn [bindR];
    try discriminate.
  destruct (String.eqb_spec (ctx_eventName (context i)) "pull_request")
    as [E|E]; cbn [negb].
  - destruct (ctx_pull_request (context i)) as [pr|]; [|discriminate].
    intros [= <-]. repeat split; try assumption. now exists pr.
  - destruct (identifier _ _ _); discriminate.
Qed.

(** [X3] The teardown branch of [run] is taken only when the
    [pull-request] input is set and parses to true, the event is
    [pull_request], its action is [closed] and the payload carries a pull
    request: no other run deletes resources. *)
Theorem teardown_only_for_closed_pull_requests
    (X : Externals) (i : Inputs) (c : Config) :
  loadConfig X i = Ok c ->
  teardown c = true ->
  Js.truthy (input_pull_request i) = true
  /\ parseFlag X (input_pull_request i) = Ok true
  /\ ctx_eventName (context i) = "pull_request"
  /\ ctx_action (context i) = Some "closed"
  /\ exists pr, ctx_pull_request (context i) = Some pr.
Proof.
  intros H Ht.
  destruct (loadConfig_inversion X i c H)
    as (raw & isPR & prId & sub & rg & loc & nm & sa & _ & _ & Hpr
        & _ & _ & _ & _ & _ & _ & _ & _ & HisPR & _ & _ & Hact & _).
  unfold teardown in Ht. apply andb_true_iff in Ht. destruct Ht as [Ht1 Ht2].
  rewrite HisPR in Ht1. subst isPR.
  destruct (loadPullRequest_true X i prId Hpr) as (A & B & C & pr & D & _).
  repeat split; try assumption.
  - rewrite Hact in Ht2. destruct (ctx_action (context i)) as [a|]; [|discriminate].
    apply String.eqb_eq in Ht2. now subst.
  - now exists pr.
Qed.

(** [X4] Outside pull-request mode (the flag is not set, or the
    pull-request id is 0) [loadConfig] returns the function-app name and
    the storage-account name of the parsed configuration unchanged, and
    the container name with its default. *)
Theorem names_unchanged_outside_pull_request_mode
    (X : Externals) (i : Inputs) (raw : RawConfig) (c : Config) :
  parseConfiguration X (input_configuration i) = Ok raw ->
  loadConfig X i = Ok c ->
  pullRequestMode (isPullRequest c) (pullRequestId c) = false ->
  raw_name raw = Some (name c)
  /\ raw_storageAccount raw = Some (storageAccount c)
  /\ assetsContainerName c = defaulted "assets" (raw_assetsContainerName raw).
Proof.
  intros Hparse H Hmode.
  destruct (loadConfig_inversion X i c H)
    as (raw' & isPR & prId & sub & rg & loc & nm & sa & _ & Hp & _
        & _ & _ & _ & R4 & R5 & _ & _ & _ & HisPR & HprId & _ & _ & Hnames).
  rewrite Hparse in Hp. injection Hp as <-.
  rewrite HisPR, HprId in Hmode. rewrite Hmode in Hnames.
  injection Hnames as -> -> ->.
  apply required_Ok in R4, R5. tauto.
Qed.

(** ** Names of a pull-request deployment *)

Lemma substring0_all (n : nat) (s : string) :
  String.length s <= n -> Js.substring0 n s = s.
Proof.
  unfold Js.substring0.
  revert n; induction s as [|ch s IH]; intros [|n] H; cbn in *;
    try reflexivity; try lia.
  rewrite IH by lia. reflexivity.
Qed.

Lemma last_char_alphanumeric (s : string) (ch : ascii) :
  Js.last_char s = Some ch -> Js.alphanumeric ch = true ->
  Js.all_non_alphanumeric s = false.
Proof.
  induction s as [|c s IH]; [discriminate|].
  cbn [Js.last_char Js.all_non_alphanumeric].
  destruct s as [|d s].
  - intros [= ->] ->. reflexivity.
  - intros H1 H2. rewrite (IH H1 H2). apply andb_false_r.
Qed.

Lemma replace_trailing_unchanged (s : string) (ch : ascii) :
  Js.last_char s = Some ch -> Js.alphanumeric ch = true ->
  Js.replace_trailing_non_alphanumeric s = s.
Proof.
  induction s as [|c s IH]; [discriminate|].
  intros H1 H2.
  cbn [Js.replace_trailing_non_alphanumeric Js.trailing_run_matches].
  rewrite (last_char_alphanumeric _ _ H1 H2).
  destruct s as [|d s]; [reflexivity|].
  cbn [Js.last_char] in H1. now rewrite (IH H1 H2).
Qed.

(** [X5] In pull-request mode, a base name that ends in a letter or a
    digit and is short enough for the suffix to fit in 60 characters is
    kept whole: the function-app name is the base name, a hyphen and the
    pull-request id. *)
Theorem short_names_are_kept
    (X : Externals) (i : Inputs) (raw : RawConfig) (c : Config)
    (base : string) (n : N) (ch : ascii) :
  parseConfiguration X (input_configuration i) = Ok raw ->
  loadConfig X i = Ok c ->
  raw_name raw = Some base ->
  pullRequestMode (isPullRequest c) (pullRequestId c) = true ->
  pullRequestId c = Some n ->
  String.length base + 1 + String.length (Js.Number_toString n) <= 60 ->
  Js.last_char base = Some ch ->
  Js.alphanumeric ch = true ->
  name c = base ++ "-" ++ Js.Number_toString n.
Proof.
  intros Hparse H Hname Hmode Hid Hlen Hlast Halnum.
  destruct (loadConfig_inversion X i c H)
    as (raw' & isPR & prId & sub & rg & loc & nm & sa & _ & Hp & _
        & _ & _ & _ & R4 & _ & _ & _ & _ & HisPR & HprId & _ & _ & Hnames).
  rewrite Hparse in Hp. injection Hp as <-.
  apply required_Ok in R4. destruct R4 as [R4 _].
  rewrite Hname in R4. injection R4 as <-.
  rewrite HisPR, HprId in Hmode. rewrite HprId in Hid. subst prId.
  rewrite Hmode in Hnames. injection Hnames as -> _ _.
  unfold pullRequestName, trimmedName, pullRequestSuffix.
  rewrite length_append. change (String.length "-") with 1.
  rewrite substring0_all by lia.
  now rewrite (replace_trailing_unchanged _ _ Hlast Halnum).
Qed.

Lemma digit_is_not_a_dash (d : N) :
  (d < 10)%N -> Ascii.eqb (Js.digit d) "-" = false.
Proof.
  intros Hd. apply Ascii.eqb_neq. intros H.
  apply (f_equal N_of_ascii) in H. unfold Js.digit in H.
  rewrite N_ascii_embedding in H by lia.
  change (N_of_ascii "-") with 45%N in H. lia.
Qed.

Lemma digits_free_of_dash (fuel : nat) (n : N) (acc : string) :
  free_of "-" acc = true -> free_of "-" (Js.digits fuel n acc) = true.
Proof.
  revert n acc; induction fuel as [|fuel IH]; intros n acc H; [exact H|].
  cbn [Js.digits].
  assert (Hacc : free_of "-" (String (Js.digit (n mod 10)) acc) = true).
  { cbn [free_of]. rewrite digit_is_not_a_dash, H; [reflexivity|].
    apply N.mod_lt. lia. }
  destruct (n / 10 =? 0)%N; [exact Hacc|now apply IH].
Qed.

Lemma separator_is_found (sep : ascii) (t d : string) :
  free_of sep (t ++ String sep d) = false.
Proof.
  induction t as [|c t IH]; cbn [append free_of].
  - now rewrite Ascii.eqb_refl.
  - rewrite IH. apply andb_false_r.
Qed.

Lemma after_last_append (sep : ascii) (t d : string) :
  free_of sep d = true -> after_last sep (t ++ String sep d) = d.
Proof.
  intros Hd. induction t as [|c t IH]; cbn [append after_last].
  - now rewrite Hd, Ascii.eqb_refl.
  - now rewrite separator_is_found.
Qed.

(** The id can be read back from a name that ends in [-id]. *)
Lemma id_after_last_dash (prefix : string) (n : N) :
  Js.decimal_value (after_last "-" (prefix ++ "-" ++ Js.Number_toString n)) = n.
Proof.
  change ("-" ++ Js.Number_toString n) with (String "-" (Js.Number_toString n)).
  rewrite after_last_append.
  - apply decimal_value_Number_toString.
  - unfold Js.Number_toString. now apply digits_free_of_dash.
Qed.

(** [X6] In pull-request mode, a pull-request id that JavaScript holds
    exactly (at most [Number.MAX_SAFE_INTEGER]) can be read back from the
    derived function-app name and from the derived container name: it is
    the decimal number after their last hyphen. *)
Theorem pull_request_id_is_read_back
    (X : Externals) (i : Inputs) (c : Config) (n : N) :
  loadConfig X i = Ok c ->
  pullRequestMode (isPullRequest c) (pullRequestId c) = true ->
  pullRequestId c = Some n ->
  (n <= Js.MAX_SAFE_INTEGER)%N ->
  Js.decimal_value (after_last "-" (name c)) = n
  /\ Js.decimal_value (after_last "-" (assetsContainerName c)) = n.
Proof.
  intros H Hmode Hid _.
  destruct (loadConfig_inversion X i c H)
    as (raw & isPR & prId & sub & rg & loc & nm & sa & _ & _ & _
        & _ & _ & _ & _ & _ & _ & _ & _ & HisPR & HprId & _ & _ & Hnames).
  rewrite HisPR, HprId in Hmode. rewrite Hmode in Hnames.
  rewrite HprId in Hid. subst prId.
  injection Hnames as -> _ ->.
  unfold pullRequestName, pullRequestContainer.
  now rewrite !id_after_last_dash.
Qed.

Lemma names_of_pull_request (X : Externals) (i : Inputs) (c : Config) :
  loadConfig X i = Ok c ->
  pullRequestMode (isPullRequest c) (pullRequestId c) = true ->
  exists base container n,
    pullRequestId c = Some n
    /\ name c = pullRequestName base n
    /\ assetsContainerName c = pullRequestContainer container n.
Proof.
  intros H Hmode.
  destruct (loadConfig_inversion X i c H)
    as (raw & isPR & prId & sub & rg & loc & nm & sa & _ & _ & _
        & _ & _ & _ & _ & _ & _ & _ & _ & HisPR & HprId & _ & _ & Hnames).
  rewrite HisPR, HprId in Hmode. rewrite Hmode in Hnames. rewrite HprId.
  destruct prId as [n|].
  - injection Hnames as -> _ ->. do 3 eexists. repeat split; reflexivity.
  - unfold pullRequestMode in Hmode. now rewrite andb_false_r in Hmode.
Qed.

(** [X7] Two pull-request deployments whose pull-request ids differ,
    both ids being integers that JavaScript holds exactly (at most
    [Number.MAX_SAFE_INTEGER]), get different function-app names and
    different container names, whatever their base names are. *)
Theorem pull_requests_do_not_collide
    (X1 X2 : Externals) (i1 i2 : Inputs) (c1 c2 : Config) (n1 n2 : N) :
  loadConfig X1 i1 = Ok c1 ->
  loadConfig X2 i2 = Ok c2 ->
  pullRequestMode (isPullRequest c1) (pullRequestId c1) = true ->
  pullRequestMode (isPullRequest c2) (pullRequestId c2) = true ->
  pullRequestId c1 = Some n1 ->
  pullRequestId c2 = Some n2 ->
  (n1 <= Js.MAX_SAFE_INTEGER)%N ->
  (n2 <= Js.MAX_SAFE_INTEGER)%N ->
  n1 <> n2 ->
  name c1 <> name c2 /\ assetsContainerName c1 <> assetsContainerName c2.
Proof.
  intros H1 H2 M1 M2 Hid1 Hid2 _ _ Hneq.
  destruct (names_of_pull_request X1 i1 c1 H1 M1)
    as (b1 & k1 & m1 & I1 & N1 & K1).
  destruct (names_of_pull_request X2 i2 c2 H2 M2)
    as (b2 & k2 & m2 & I2 & N2 & K2).
  rewrite Hid1 in I1. injection I1 as <-.
  rewrite Hid2 in I2. injection I2 as <-.
  split; intros E; apply Hneq.
  - rewrite N1, N2 in E. unfold pullRequestName in E.
    apply (f_equal (fun s => Js.decimal_value (after_last "-" s))) in E.
    now rewrite !id_after_last_dash in E.
  - rewrite K1, K2 in E. unfold pullRequestContainer in E.
    apply (f_equal (fun s => Js.decimal_value (after_last "-" s))) in E.
    now rewrite !id_after_last_dash in E.
Qed.

(** ** Failures of a deployment *)

(** [X8] [deploy] returns only after printing the endpoint, and throws
    only when the last command it ran failed: the error of a provisioning
    command is thrown as it is, while a failed package upload (third
    attempt), asset upload or public-asset upload is replaced by a fixed
    message that does not carry the error of the command. *)
Theorem deploy_failures
    (X : Externals) (env : Oracle) (c : Config) (h : list Event) :
  let zip := cmd_config_zip c (join X [buildOutputPath c; "package.zip"]) in
  let (r, trace) := deploy X env c h in
  match r with
  | Ok _ =>
      last trace (Log EmptyString)
      = Log ("Successfully deployed to https://" ++ name c ++ ".azurewebsites.net/")
  | Throw e =>
      exists cmd cause,
        last (actions trace) (Exec EmptyString, None) = (Exec cmd, Some cause)
        /\ ((In cmd (provisioning c) /\ e = cause)
            \/ (cmd = zip
                /\ e = Js.newError "Could not deploy package to Azure function app")
            \/ (cmd = cmd_upload_assets c
                /\ e = Js.newError "Could not upload assets to Azure blob storage")
            \/ (cmd = cmd_upload_public X c
                /\ e = Js.newError
                         "Could not upload public assets to Azure blob storage"))
  end.
Proof.
  intros zip. subst zip. unfold provisioning.
  destruct (deploy X env c h) as [r trace] eqn:Hrun. revert Hrun.
  run_program; intros [= <- <-]; cbn [app actions last]; try reflexivity.
  all: do 2 eexists; (split; [reflexivity|]); cbn [In]; tauto.
Qed.

(** ** Waiting *)

Lemma waits_app (t1 t2 : list Event) :
  waits (t1 ++ t2) = (waits t1 ++ waits t2)%list.
Proof.
  induction t1 as [|[msg|a r|ms|msg] t1 IH]; cbn; rewrite ?IH; reflexivity.
Qed.

Lemma quiet_bind {A B : Type} (m : M A) (f : A -> M B) :
  never_waits m -> (forall a, never_waits (f a)) -> never_waits (bind m f).
Proof.
  intros Hm Hf h. unfold bind. specialize (Hm h).
  destruct (m h) as [[a|e] evs]; cbn [snd] in *; [|exact Hm].
  specialize (Hf a (h ++ evs)%list).
  destruct (f a (h ++ evs)%list) as [r evs']. cbn [snd] in *.
  now rewrite waits_app, Hm, Hf.
Qed.

Lemma quiet_try_catch {A : Type} (m : M A) (handler : Js.Error -> M A) :
  never_waits m -> (forall e, never_waits (handler e)) ->
  never_waits (try_catch m handler).
Proof.
  intros Hm Hf h. unfold try_catch. specialize (Hm h).
  destruct (m h) as [[a|e] evs]; cbn [snd] in *; [exact Hm|].
  specialize (Hf e (h ++ evs)%list).
  destruct (handler e (h ++ evs)%list) as [r evs']. cbn [snd] in *.
  now rewrite waits_app, Hm, Hf.
Qed.

Lemma quiet_perform (env : Oracle) (a : Action) : never_waits (perform env a).
Proof. intros h. unfold perform. destruct (env h a); reflexivity. Qed.

Lemma quiet_forEach {A : Type} (xs : list A) (body : A -> M unit) :
  (forall x, never_waits (body x)) -> never_waits (forEach xs body).
Proof.
  intros Hbody. induction xs as [|x xs IH]; cbn [forEach].
  - intros h. reflexivity.
  - apply quiet_bind; [apply Hbody|intros _; exact IH].
Qed.

Ltac quiet_step :=
  match goal with
  | |- never_waits (bind _ _) => apply quiet_bind; [|intros ?]
  | |- never_waits (try_catch _ _) => apply quiet_try_catch; [|intros ?]
  | |- never_waits (perform _ _) => apply quiet_perform
  | |- never_waits (exec _ _) => apply quiet_perform
  | |- never_waits (forEach _ _) => apply quiet_forEach; intros ?
  | |- never_waits (if ?b then _ else _) => destruct b
  | |- never_waits (log _) => intros ?; reflexivity
  | |- never_waits (ret _) => intros ?; reflexivity
  | |- never_waits (throw _) => intros ?; reflexivity
  | |- never_waits (lift _) => intros ?; reflexivity
  end.

Lemma among_quiet {A : Type} (allowed : list (list N)) (m : M A) :
  In [] allowed -> never_waits m -> waits_among allowed m.
Proof. intros Hin Hm h. now rewrite Hm. Qed.

Lemma among_bind_left {A B : Type} (allowed : list (list N))
    (m : M A) (f : A -> M B) :
  In [] allowed -> never_waits m -> (forall a, waits_among allowed (f a)) ->
  waits_among allowed (bind m f).
Proof.
  intros Hin Hm Hf h. unfold bind. specialize (Hm h).
  destruct (m h) as [[a|e] evs]; cbn [snd] in *; [|now rewrite Hm].
  specialize (Hf a (h ++ evs)%list).
  destruct (f a (h ++ evs)%list) as [r evs']. cbn [snd] in *.
  now rewrite waits_app, Hm.
Qed.

Lemma among_bind_right {A B : Type} (allowed : list (list N))
    (m : M A) (f : A -> M B) :
  waits_among allowed m -> (forall a, never_waits (f a)) ->
  waits_among allowed (bind m f).
Proof.
  intros Hm Hf h. unfold bind. specialize (Hm h).
  destruct (m h) as [[a|e] evs]; cbn [snd] in *; [|exact Hm].
  specialize (Hf a (h ++ evs)%list).
  destruct (f a (h ++ evs)%list) as [r evs']. cbn [snd] in *.
  now rewrite waits_app, Hf, app_nil_r.
Qed.

Lemma deploy_waits (X : Externals) (env : Oracle) (c : Config) :
  waits_among [[]; [5000%N]; [5000%N; 5000%N]] (deploy X env c).
Proof.
  intros h.
  destruct (deploy X env c h) as [r trace] eqn:Hrun. revert Hrun.
  run_program; intros [= <- <-]; cbn [snd app waits In]; tauto.
Qed.

(** [X9] A run waits at most twice, five seconds each time: the only
    waits are those between the attempts of the package upload. *)
Theorem run_waits_at_most_twice (X : Externals) (env : Oracle) (i : Inputs) :
  In (waits (trace_of_run X env i)) [[]; [5000%N]; [5000%N; 5000%N]].
Proof.
  assert (Hnil : In [] [[]; [5000%N]; [5000%N; 5000%N]]) by (cbn; tauto).
  assert (Hbody : waits_among [[]; [5000%N]; [5000%N; 5000%N]]
                    (run_body X env i)).
  { unfold run_body.
    apply among_bind_left; [exact Hnil|repeat quiet_step|intros c].
    apply among_bind_left;
      [exact Hnil|unfold checkAzureCliIsAvailable; repeat quiet_step|intros _].
    destruct (teardown c).
    - apply among_quiet; [exact Hnil|]. unfold clean. repeat quiet_step.
    - apply among_bind_left;
        [exact Hnil|unfold build; repeat quiet_step|intros _].
      apply among_bind_left;
        [exact Hnil
        |unfold package, wrapPage, copyStaticPage; repeat quiet_step|intros _].
      apply among_bind_right; [apply deploy_waits|intros _].
      unfold configureAppSettings. repeat quiet_step. }
  unfold trace_of_run. rewrite run_of_body. specialize (Hbody []).
  destruct (run_body X env i []) as [[[]|e] body]; cbn [snd] in *;
    [exact Hbody|].
  rewrite waits_app. cbn [waits]. now rewrite app_nil_r.
Qed.

(** ** The Azure CLI is missing *)

(** [X10] When [az --version] fails, the run executes nothing else and
    reports the failure with the text of the error ([Error.toString]), so
    that the message of an [Error] is reported with the prefix
    [Error: ]. *)
Theorem missing_cli_stops_the_run
    (X : Externals) (env : Oracle) (i : Inputs) (c : Config) (e : Js.Error) :
  loadConfig X i = Ok c ->
  env [] (Exec "az --version") = Some e ->
  trace_of_run X env i
  = [Did (Exec "az --version") (Some e); Log "Unable to find Azure CLI";
     SetFailed (Js.toString e)]
  /\ (Js.name e = "Error" -> Js.truthy (Js.message e) = true ->
      Js.toString e = "Error: " ++ Js.message e).
Proof.
  intros Hload Henv. split.
  - unfold trace_of_run, run, run_body, try_catch at 1, bind at 1, lift.
    rewrite Hload. cbn [app]. unfold bind at 1.
    unfold checkAzureCliIsAvailable, try_catch at 1, exec, perform.
    rewrite Henv. reflexivity.
  - intros Hname Hmsg. unfold Js.toString. rewrite Hname. cbn.
    unfold Js.truthy in Hmsg. apply negb_true_iff in Hmsg. now rewrite Hmsg.
Qed.

(** ** A teardown run *)

Lemma run_body_teardown (X : Externals) (env : Oracle) (i : Inputs) (c : Config) :
  loadConfig X i = Ok c ->
  teardown c = true ->
  run_body X env i []
  = (checkAzureCliIsAvailable env;;
     log "cleaning up closed pull request resources.";;
     clean env c) [].
Proof.
  intros Hload Ht. unfold run_body, bind at 1, lift.
  rewrite Hload, Ht. cbn [app].
  destruct ((checkAzureCliIsAvailable env;;
             log "cleaning up closed pull request resources.";;
             clean env c) []) as [r t].
  reflexivity.
Qed.

(** [X11] A teardown run performs nothing but commands: an initial
    segment of [az --version], the deletion of the function app, the
    deletion of the container, the installation of the extension and the
    deletion of the app-insights resource.  A command that fails is the
    last one executed, and the run succeeds exactly when all five
    commands ran and succeeded. *)
Theorem teardown_run_only_deletes
    (X : Externals) (env : Oracle) (i : Inputs) (c : Config) :
  loadConfig X i = Ok c ->
  teardown c = true ->
  let trace := trace_of_run X env i in
  exists n,
    n <= 5
    /\ map fst (actions trace) = map Exec (firstn n (teardownCommands c))
    /\ (forall k, In k (failures_from 0 (actions trace)) -> S k = n)
    /\ (exitCode trace = 0%N <-> n = 5 /\ failures_from 0 (actions trace) = []).
Proof.
  intros Hload Ht trace. subst trace.
  unfold trace_of_run, teardownCommands.
  rewrite run_of_body, (run_body_teardown X env i c Hload Ht).
  destruct ((checkAzureCliIsAvailable env;;
             log "cleaning up closed pull request resources.";;
             clean env c) []) as [r t] eqn:Hrun.
  revert Hrun. unfold_program. repeat (ask_oracle; cbv beta iota zeta).
  all: intros [= <- <-];
    cbn [snd fst app actions map failures_from exitCode existsb is_SetFailed
         orb].
  1: exists 1. 2: exists 2. 3: exists 3. 4: exists 4. 5: exists 5. 6: exists 5.
  all: cbn [firstn map]; (split; [lia|]); (split; [reflexivity|]);
    split; [cbn [In]; intuition lia|].
  all: split; [try discriminate|intros [? ?]; try lia; try discriminate].
  all: intros _; split; reflexivity.
Qed.

(** ** Pages *)

Lemma copiesOf_app (src : string) (a b : list Action) :
  copiesOf src (a ++ b)%list = (copiesOf src a ++ copiesOf src b)%list.
Proof.
  induction a as [|[] a IH]; cbn [app copiesOf]; try exact IH.
  - reflexivity.
  - destruct (src0 =? src); cbn [app]; now rewrite IH.
Qed.

(** Going through the pages that [keep] selects, each copied once by
    [step], makes no copy of a file that is not the source of a page. *)
Lemma copies_elsewhere (step : Page -> list Action) (target : Page -> string)
    (keep : Page -> bool) (pages : list Page) (src : string) :
  (forall p s,
      copiesOf s (step p)
      = if (pageSourcePath p =? s) then [target p] else []) ->
  ~ In src (map pageSourcePath pages) ->
  copiesOf src (flat_map step (filter keep pages)) = [].
Proof.
  intros Hstep. induction pages as [|p pages IH]; intros Hout; [reflexivity|].
  cbn [map In] in Hout. cbn [filter].
  assert (IH' : copiesOf src (flat_map step (filter keep pages)) = [])
    by (apply IH; tauto).
  destruct (keep p); [|exact IH'].
  cbn [flat_map]. rewrite copiesOf_app, Hstep, IH'.
  destruct (String.eqb_spec (pageSourcePath p) src) as [E|_]; [|reflexivity].
  exfalso. apply Hout. now left.
Qed.

(** Among pages with distinct source files, it copies the source of
    [page] once when [keep] selects the page, and never otherwise. *)
Lemma copies_of_page (step : Page -> list Action) (target : Page -> string)
    (keep : Page -> bool) (pages : list Page) (page : Page) :
  (forall p s,
      copiesOf s (step p)
      = if (pageSourcePath p =? s) then [target p] else []) ->
  NoDup (map pageSourcePath pages) ->
  In page pages ->
  copiesOf (pageSourcePath page) (flat_map step (filter keep pages))
  = if keep page then [target page] else [].
Proof.
  intros Hstep. induction pages as [|p pages IH]; intros Hnd Hin; [destruct Hin|].
  cbn [map] in Hnd. apply NoDup_cons_iff in Hnd. destruct Hnd as [Hp Hnd].
  cbn [filter]. destruct Hin as [->|Hin].
  - pose proof (copies_elsewhere step target keep pages _ Hstep Hp) as Hrest.
    destruct (keep page); [|exact Hrest].
    cbn [flat_map]. rewrite copiesOf_app, Hstep, Hrest, String.eqb_refl.
    reflexivity.
  - specialize (IH Hnd Hin).
    destruct (keep p); [|exact IH].
    cbn [flat_map]. rewrite copiesOf_app, Hstep, IH.
    destruct (String.eqb_spec (pageSourcePath p) (pageSourcePath page))
      as [E|_]; [|reflexivity].
    exfalso. apply Hp. rewrite E. now apply in_map.
Qed.

Lemma copies_of_handler (X : Externals) (p : Page) (s : string) :
  copiesOf s (handlerArtifacts X p)
  = if (pageSourcePath p =? s) then [targetPath p] else [].
Proof.
  unfold handlerArtifacts. cbn [copiesOf].
  now destruct (pageSourcePath p =? s).
Qed.

Lemma copies_of_static (X : Externals) (c : Config) (p : Page) (s : string) :
  copiesOf s (staticPageCopy X c p)
  = if (pageSourcePath p =? s)
    then [join X [buildAssetOutputPath c; "pages"; targetPageFileName p]]
    else [].
Proof.
  unfold staticPageCopy. cbn [copiesOf].
  now destruct (pageSourcePath p =? s).
Qed.

(** [X12] When [package] succeeds on scanned pages that have distinct
    source files, none of them the [.next/static] directory, the source
    file of every page is copied once or never in the whole run: the
    source of a static page (also a special one) once, to the [pages]
    folder of the asset tree; the source of a page that is neither static
    nor special once, to its function folder ([targetPath]); the source of
    a special page that is not static never. *)
Theorem pages_are_wrapped_or_copied
    (X : Externals) (env : Oracle) (c : Config) (h : list Event) (page : Page) :
  let pages := scanPages X (sourcePath c) (buildPagesOutputPath c) in
  NoDup (map pageSourcePath pages) ->
  ~ In (join X [sourcePath c; ".next/static"]) (map pageSourcePath pages) ->
  In page pages ->
  fst (package X env c h) = Ok tt ->
  copiesOf (pageSourcePath page) (map fst (actions (snd (package X env c h))))
  = if isStatic page
    then [join X [buildAssetOutputPath c; "pages"; targetPageFileName page]]
    else if isSpecial page then [] else [targetPath page].
Proof.
  intros pages Hnd Hstatic Hin Hok.
  pose proof (attempts_package X env c h) as H.
  destruct (package X env c h) as [[[]|e] evs]; [|discriminate].
  cbn [snd]. rewrite H, map_map. cbn [succeeded fst]. rewrite map_id.
  unfold packagePlan, packageManifests, packageArchive, handlerPages.
  fold pages. cbn [copiesOf]. rewrite !copiesOf_app. cbn [copiesOf].
  rewrite (copies_of_page _ _ _ _ _ (copies_of_handler X) Hnd Hin).
  rewrite (copies_of_page _ _ _ _ _ (copies_of_static X c) Hnd Hin).
  destruct (String.eqb_spec (join X [sourcePath c; ".next/static"])
              (pageSourcePath page)) as [E|_].
  { exfalso. apply Hstatic. rewrite E. now apply in_map. }
  destruct (isStatic page), (isSpecial page); reflexivity.
Qed.

(** ** The working tree *)

Lemma plan_action_unique (front done rest : list Action) (x a : Action) :
  (front ++ [x] = done ++ a :: rest)%list ->
  Forall (fun b => is_Remove b = false) front ->
  is_Remove a = true ->
  done = front /\ a = x /\ rest = [].
Proof.
  revert done; induction front as [|f front IH]; intros done E Hf Ha.
  - destruct done as [|d done]; cbn in E.
    + injection E as <- <-. now repeat split.
    + injection E as _ E. destruct done; discriminate.
  - inversion Hf as [|? ? Hf1 Hf2]; subst.
    destruct done as [|d done]; cbn in E.
    + injection E as <- _. congruence.
    + injection E as <- E.
      destruct (IH done E Hf2 Ha) as (-> & -> & ->). now repeat split.
Qed.

Lemma packagePlan_front (X : Externals) (c : Config) :
  exists front,
    packagePlan X c = (front ++ [Remove (buildPagesOutputPath c)])%list
    /\ Forall (fun b => is_Remove b = false) front
    /\ In (Archive (join X [buildOutputPath c; "package.zip"])
             (buildPagesOutputPath c) "package.zip") front
    /\ In (WriteFile (join X [buildOutputPath c; "packagename.txt"])
             "package.zip") front.
Proof.
  set (pages := scanPages X (sourcePath c) (buildPagesOutputPath c)).
  exists (NextBuildInit (sourcePath c) (buildPagesOutputPath c)
          :: flat_map (handlerArtifacts X) (handlerPages pages)
          ++ packageManifests X c pages
          ++ [Archive (join X [buildOutputPath c; "package.zip"])
                (buildPagesOutputPath c) "package.zip";
              WriteFile (join X [buildOutputPath c; "packagename.txt"])
                "package.zip"])%list.
  split; [|split; [|split]].
  - unfold packagePlan, packageArchive. fold pages. cbn [app].
    f_equal. rewrite <- !app_assoc. reflexivity.
  - constructor; [reflexivity|].
    apply Forall_app; split; [|apply Forall_app; split].
    + apply Forall_flat_map. apply Forall_forall. intros p _.
      unfold handlerArtifacts. repeat (constructor; [reflexivity|]).
      constructor.
    + unfold packageManifests. apply Forall_app; split.
      * repeat (constructor; [reflexivity|]). constructor.
      * apply Forall_flat_map. apply Forall_forall. intros p _.
        unfold staticPageCopy. repeat (constructor; [reflexivity|]).
        constructor.
    + repeat (constructor; [reflexivity|]). constructor.
  - right. apply in_or_app; right. apply in_or_app; right. now left.
  - right. apply in_or_app; right. apply in_or_app; right. right. now left.
Qed.

Lemma done_within_front (front done rest : list Action) (x a : Action) :
  (front ++ [x] = done ++ a :: rest)%list -> exists t, front = (done ++ t)%list.
Proof.
  revert done; induction front as [|f front IH]; intros done E.
  - destruct done as [|d done]; [now exists []|].
    cbn in E. injection E as _ E. destruct done; discriminate.
  - destruct done as [|d done]; [now exists (f :: front)|].
    cbn in E. injection E as <- E.
    destruct (IH done E) as [t ->]. now exists t.
Qed.

Lemma in_succeeded (a : Action) (o : option Js.Error) (l : list Action) :
  In (a, o) (map succeeded l) <-> In a l /\ o = None.
Proof.
  rewrite in_map_iff. unfold succeeded. split.
  - intros (b & [= -> <-] & Hb). now split.
  - intros [Ha ->]. now exists a.
Qed.

(** [X13] [package] removes nothing but the page tree, and only as its
    last action: when the removal is attempted, the archive and the
    manifest have been written and every earlier action succeeded. *)
Theorem working_tree_is_removed_last
    (X : Externals) (env : Oracle) (c : Config) (h : list Event)
    (path : string) (outcome : option Js.Error) :
  In (Remove path, outcome) (actions (snd (package X env c h))) ->
  path = buildPagesOutputPath c
  /\ In (succeeded (Archive (join X [buildOutputPath c; "package.zip"])
                      (buildPagesOutputPath c) "package.zip"))
        (actions (snd (package X env c h)))
  /\ In (succeeded (WriteFile (join X [buildOutputPath c; "packagename.txt"])
                      "package.zip"))
        (actions (snd (package X env c h)))
  /\ (forall a o, In (a, o) (actions (snd (package X env c h))) ->
        o = None \/ a = Remove path).
Proof.
  intros Hin.
  destruct (packagePlan_front X c) as (front & Hplan & Hfront & Harch & Hman).
  pose proof (attempts_package X env c h) as Hrun.
  rewrite Forall_forall in Hfront.
  assert (Hnot : forall p, ~ In (Remove p) front).
  { intros p Hp. apply Hfront in Hp. discriminate. }
  destruct (package X env c h) as [[[]|e] trace]; cbn [snd] in *.
  - rewrite Hrun, Hplan in Hin |- *. clear Hrun.
    apply in_succeeded in Hin. destruct Hin as [Hin ->].
    apply in_app_or in Hin. destruct Hin as [Hin|[Hin|[]]];
      [now apply Hnot in Hin|].
    injection Hin as <-.
    split; [reflexivity|]. split; [|split].
    + apply in_succeeded. split; [|reflexivity]. apply in_or_app. now left.
    + apply in_succeeded. split; [|reflexivity]. apply in_or_app. now left.
    + intros a o H. apply in_succeeded in H. now left.
  - destruct Hrun as (done & a & rest & Hsplit & Hacts).
    rewrite Hplan in Hsplit. rewrite Hacts in Hin |- *.
    destruct (done_within_front _ _ _ _ _ Hsplit) as [t Ht].
    apply in_app_or in Hin. destruct Hin as [Hin|[Hin|[]]].
    + apply in_succeeded in Hin. destruct Hin as [Hin _].
      exfalso. apply (Hnot path). rewrite Ht. apply in_or_app. now left.
    + injection Hin as -> <-.
      assert (Hf : Forall (fun b => is_Remove b = false) front)
        by now apply Forall_forall.
      destruct (plan_action_unique _ _ _ _ _ Hsplit Hf eq_refl)
        as (-> & [= ->] & _).
      split; [reflexivity|]. split; [|split].
      * apply in_or_app; left. apply in_succeeded. now split.
      * apply in_or_app; left. apply in_succeeded. now split.
      * intros a o H. apply in_app_or in H. destruct H as [H|[H|[]]].
        -- apply in_succeeded in H. now left.
        -- injection H as <- _. now right.
Qed.

(** ** Failures of the build *)

(** [X14] [build] loads the Next.js build module, parses the
    configuration and runs the build, in that order and stopping at the
    first failure.  A failure to load the module is replaced by a message
    that asks to install [next]; the other two errors are thrown as they
    are. *)
Theorem build_failures (env : Oracle) (c : Config) (h : list Event) :
  let (r, trace) := build env c h in
  match r with
  | Ok _ => actions trace = map succeeded (buildPlan c)
  | Throw e =>
      (exists cause,
          actions trace
          = [(RequireNextBuild (sourcePath c ++ "/node_modules/next/dist/build"),
              Some cause)]
          /\ e = Js.newError
                   "Unable to load next module. Make sure next is in your package.json and you have run 'npm install'.")
      \/ actions trace
         = [succeeded (RequireNextBuild
                         (sourcePath c ++ "/node_modules/next/dist/build"));
            (ParseNextConfiguration (sourcePath c), Some e)]
      \/ actions trace
         = [succeeded (RequireNextBuild
                         (sourcePath c ++ "/node_modules/next/dist/build"));
            succeeded (ParseNextConfiguration (sourcePath c));
            (NextBuild (sourcePath c), Some e)]
  end.
Proof.
  unfold buildPlan.
  destruct (build env c h) as [r trace] eqn:Hrun. revert Hrun.
  unfold build. unfold_program. repeat (ask_oracle; cbv beta iota zeta).
  all: intros [= <- <-]; cbn [app actions map succeeded].
  - left. now exists e.
  - right. now left.
  - right. now right.
  - reflexivity.
Qed.

(** ** The Next.js configuration *)

Lemma get_assign_same {V : Type} (o : NextConfiguration.Obj V) (key : string)
    (v : NextConfiguration.Value V) :
  NextConfiguration.get (NextConfiguration.assign o key v) key = Some v.
Proof.
  induction o as [|[k w] o IH]; cbn.
  - now rewrite String.eqb_refl.
  - destruct (String.eqb_spec k key) as [->|Hne]; cbn.
    + now rewrite String.eqb_refl.
    + apply String.eqb_neq in Hne. now rewrite Hne.
Qed.

Lemma get_assign_other {V : Type} (o : NextConfiguration.Obj V)
    (key other : string) (v : NextConfiguration.Value V) :
  other <> key ->
  NextConfiguration.get (NextConfiguration.assign o key v) other
  = NextConfiguration.get o other.
Proof.
  intros Hne. induction o as [|[k w] o IH]; cbn.
  - destruct (String.eqb_spec key other) as [->|_]; [contradiction|reflexivity].
  - destruct (String.eqb_spec k key) as [->|Hk]; cbn.
    + destruct (String.eqb_spec key other) as [->|_]; [contradiction|reflexivity].
    + now rewrite IH.
Qed.

Lemma keys_assign {V : Type} (o : NextConfiguration.Obj V) (key : string)
    (v : NextConfiguration.Value V) :
  map fst (NextConfiguration.assign o key v)
  = match NextConfiguration.get o key with
    | Some _ => map fst o
    | None => (map fst o ++ [key])%list
    end.
Proof.
  induction o as [|[k w] o IH]; cbn; [reflexivity|].
  destruct (String.eqb_spec k key) as [->|Hk]; cbn; [reflexivity|].
  rewrite IH. now destruct (NextConfiguration.get o key).
Qed.

(** [X15] Let [load] and [phase] be the loader and the phase constant
    that [parseNextConfiguration] requires: those of the [next-server]
    layout when both modules load, otherwise those of the layout of
    Next.js 9.0.6.  When [load phase sourcePath] throws,
    [parseNextConfiguration] throws the same error.  When it returns a
    configuration, [parseNextConfiguration] returns that configuration
    with the target [serverless], whatever target it asked for: every
    other property is as the loader gave it, and the properties keep their
    order, [target] coming last when the loaded configuration had none. *)
Theorem target_is_forced_to_serverless
    {V : Type} (N : NextConfiguration.NodeModules V) (sourcePath : string)
    (load : NextConfiguration.Loader V) (phase : string) :
  NextConfiguration.requireBoth N
    (sourcePath ++ "/node_modules/next-server/dist/server/config")
    (sourcePath ++ "/node_modules/next-server/dist/lib/constants")
  = Ok (load, phase)
  \/ ((exists e,
         NextConfiguration.requireBoth N
           (sourcePath ++ "/node_modules/next-server/dist/server/config")
           (sourcePath ++ "/node_modules/next-server/dist/lib/constants")
         = Throw e)
      /\ NextConfiguration.requireBoth N
           (sourcePath ++ "/node_modules/next/dist/next-server/server/config")
           (sourcePath ++ "/node_modules/next/dist/next-server/lib/constants")
         = Ok (load, phase)) ->
  match load phase sourcePath with
  | Throw e => NextConfiguration.parseNextConfiguration N sourcePath = Throw e
  | Ok loaded =>
      exists configuration,
        NextConfiguration.parseNextConfiguration N sourcePath = Ok configuration
        /\ NextConfiguration.get configuration "target"
           = Some (NextConfiguration.Text "serverless")
        /\ (forall key, key <> "target" ->
              NextConfiguration.get configuration key
              = NextConfiguration.get loaded key)
        /\ map fst configuration
           = match NextConfiguration.get loaded "target" with
             | Some _ => map fst loaded
             | None => (map fst loaded ++ ["target"])%list
             end
  end.
Proof.
  intros Hrequire.
  assert (Hparse :
            NextConfiguration.parseNextConfiguration N sourcePath
            = bindR (load phase sourcePath)
                (fun loaded =>
                   Ok (NextConfiguration.assign loaded "target"
                         (NextConfiguration.Text "serverless")))).
  { unfold NextConfiguration.parseNextConfiguration.
    destruct Hrequire as [->|[[e ->] ->]]; reflexivity. }
  rewrite Hparse.
  destruct (load phase sourcePath) as [loaded|e]; [|reflexivity].
  eexists. split; [reflexivity|].
  split; [apply get_assign_same|].
  split; [intros key Hkey; now apply get_assign_other|apply keys_assign].
Qed.


(** ** The two revisions of the configuration loading *)

(** [X16] Once the [configuration] input is present and parses, the
    previous revision ([getIsPullRequest], the id and
    [loadConfig(pullRequestId)] of its [run]) and the current [loadConfig]
    fail with the same error or return the same pull-request flag, id and
    names. *)
Theorem revisions_agree_on_a_parsed_configuration
    (X : Externals) (i : Inputs) (raw : RawConfig) :
  Js.truthy (input_configuration i) = true ->
  parseConfiguration X (input_configuration i) = Ok raw ->
  match loadConfig X i, PreviousConfiguration.configure X i with
  | Ok c, Ok p => same_configuration c p
  | Throw e, Throw e' => e = e'
  | _, _ => False
  end.
Proof.
  intros Hin Hparse.
  unfold loadConfig, PreviousConfiguration.configure,
    PreviousConfiguration.loadConfig, loadPullRequest,
    Previous.getIsPullRequest.
  rewrite Hin, Hparse. cbn [negb bindR].
  destruct (Js.truthy (input_pull_request i)); cbn [bindR fst snd].
  - destruct (parseFlag X (input_pull_request i)) as [[|]|e];
      cbn [bindR fst snd andb]; [| |reflexivity].
    + destruct (ctx_eventName (context i) =? "pull_request"); cbn [negb].
      * destruct (ctx_pull_request (context i)) as [pr|];
          cbn [bindR fst snd]; [|reflexivity].
        unfold pullRequestMode. cbn [andb].
        destruct (required "subscriptionId" _); cbn [bindR]; [|reflexivity].
        destruct (required "resourceGroup" _); cbn [bindR]; [|reflexivity].
        destruct (required "location" _); cbn [bindR]; [|reflexivity].
        destruct (required "name" _); cbn [bindR]; [|reflexivity].
        destruct (required "storageAccount" _); cbn [bindR]; [|reflexivity].
        repeat split.
      * rewrite (proj1 (eventName_is_unbound _)),
          (proj2 (eventName_is_unbound _)). reflexivity.
    + destruct (required "subscriptionId" _); cbn [bindR]; [|reflexivity].
      destruct (required "resourceGroup" _); cbn [bindR]; [|reflexivity].
      destruct (required "location" _); cbn [bindR]; [|reflexivity].
      destruct (required "name" _); cbn [bindR]; [|reflexivity].
      destruct (required "storageAccount" _); cbn [bindR]; [|reflexivity].
      repeat split.
  - destruct (required "subscriptionId" _); cbn [bindR]; [|reflexivity].
    destruct (required "resourceGroup" _); cbn [bindR]; [|reflexivity].
    destruct (required "location" _); cbn [bindR]; [|reflexivity].
    destruct (required "name" _); cbn [bindR]; [|reflexivity].
    destruct (required "storageAccount" _); cbn [bindR]; [|reflexivity].
    repeat split.
Qed.

(** The revisions differ when the configuration input is missing and the
    pull-request input is set on another event: the previous revision
    checks the event first. *)
Lemma revisions_differ_without_configuration :
  let i :=
    {| input_configuration := EmptyString;
       input_pull_request := "true";
       input_app_settings := EmptyString;
       GITHUB_WORKSPACE := "/ws";
       context := {| ctx_eventName := "push"; ctx_action := None;
                     ctx_pull_request := None |} |} in
  loadConfig Sample.externals i = Throw (Js.newError "Configuration is missing")
  /\ PreviousConfiguration.configure Sample.externals i
     = Throw (Js.ReferenceError "eventName").
Proof. split; reflexivity. Qed.

(** ** The further properties on the sample workflow *)

Lemma loaded_names_are_not_empty_witness :
  Js.truthy (name Scenario.openedConfig) = true
  /\ Js.truthy (storageAccount Scenario.openedConfig) = true
  /\ Js.truthy (assetsContainerName Scenario.openedConfig) = true.
Proof.
  destruct (loaded_names_are_not_empty Sample.externals Sample.opened
              Scenario.openedConfig)
    as (_ & _ & _ & H4 & H5 & _ & H7).
  - vm_compute. reflexivity.
  - split; [exact H4|]. split; [exact H5|exact H7].
Defined.

Lemma teardown_only_for_closed_pull_requests_witness :
  ctx_eventName (context Sample.closed) = "pull_request"
  /\ ctx_action (context Sample.closed) = Some "closed".
Proof.
  destruct (teardown_only_for_closed_pull_requests Sample.externals
              Sample.closed Sample.closedConfig)
    as (_ & _ & H3 & H4 & _).
  - vm_compute. reflexivity.
  - reflexivity.
  - split; [exact H3|exact H4].
Defined.

Lemma names_unchanged_outside_pull_request_mode_witness :
  raw_name Sample.raw = Some (name Scenario.zeroIdConfig)
  /\ raw_storageAccount Sample.raw
     = Some (storageAccount Scenario.zeroIdConfig)
  /\ assetsContainerName Scenario.zeroIdConfig = "assets".
Proof.
  apply (names_unchanged_outside_pull_request_mode Sample.externals
           Scenario.zeroId Sample.raw Scenario.zeroIdConfig).
  - reflexivity.
  - vm_compute. reflexivity.
  - reflexivity.
Defined.

Lemma short_names_are_kept_witness :
  name Scenario.openedConfig = "my-next-app" ++ "-" ++ Js.Number_toString 1234567890.
Proof.
  apply (short_names_are_kept Sample.externals Sample.opened Sample.raw
           Scenario.openedConfig "my-next-app" 1234567890%N "p"%char).
  - reflexivity.
  - vm_compute. reflexivity.
  - reflexivity.
  - reflexivity.
  - reflexivity.
  - vm_compute. lia.
  - reflexivity.
  - reflexivity.
Defined.

Lemma pull_request_id_is_read_back_witness :
  Js.decimal_value (after_last "-" "my-next-app-1234567890") = 1234567890%N
  /\ Js.decimal_value (after_last "-" "assets-1234567890") = 1234567890%N.
Proof.
  apply (pull_request_id_is_read_back Sample.externals Sample.opened
           Scenario.openedConfig 1234567890%N).
  - vm_compute. reflexivity.
  - reflexivity.
  - reflexivity.
  - vm_compute. discriminate.
Defined.

Lemma pull_requests_do_not_collide_witness :
  name Scenario.openedConfig <> name Scenario.otherOpenedConfig
  /\ assetsContainerName Scenario.openedConfig
     <> assetsContainerName Scenario.otherOpenedConfig.
Proof.
  apply (pull_requests_do_not_collide Sample.externals Sample.externals
           Sample.opened Scenario.otherOpened
           Scenario.openedConfig Scenario.otherOpenedConfig
           1234567890%N 1234567891%N).
  - vm_compute. reflexivity.
  - vm_compute. reflexivity.
  - reflexivity.
  - reflexivity.
  - reflexivity.
  - reflexivity.
  - vm_compute. discriminate.
  - vm_compute. discriminate.
  - discriminate.
Defined.

Lemma missing_cli_stops_the_run_witness :
  trace_of_run Sample.externals (Sample.failing "az --version") Sample.push
  = [Did (Exec "az --version") (Some Sample.failure);
     Log "Unable to find Azure CLI";
     SetFailed "Error: Command failed: az"].
Proof.
  destruct (missing_cli_stops_the_run Sample.externals
              (Sample.failing "az --version") Sample.push Sample.config
              Sample.failure)
    as [H _].
  - vm_compute. reflexivity.
  - reflexivity.
  - exact H.
Defined.

Lemma teardown_run_only_deletes_witness :
  exists n,
    n <= 5
    /\ map fst (actions (trace_of_run Sample.externals
                           (Sample.failing "az storage container delete")
                           Sample.closed))
       = map Exec (firstn n (teardownCommands Sample.closedConfig))
    /\ (forall k,
          In k (failures_from 0
                  (actions (trace_of_run Sample.externals
                              (Sample.failing "az storage container delete")
                              Sample.closed))) ->
          S k = n)
    /\ (exitCode (trace_of_run Sample.externals
                    (Sample.failing "az storage container delete")
                    Sample.closed) = 0%N
        <-> n = 5
            /\ failures_from 0
                 (actions (trace_of_run Sample.externals
                             (Sample.failing "az storage container delete")
                             Sample.closed)) = []).
Proof.
  apply (teardown_run_only_deletes Sample.externals
           (Sample.failing "az storage container delete") Sample.closed
           Sample.closedConfig).
  - vm_compute. reflexivity.
  - reflexivity.
Defined.

Lemma pages_are_wrapped_or_copied_witness :
  copiesOf (pageSourcePath Sample.appPage)
    (map fst (actions (snd (package Sample.externals Sample.allSucceed
                              Sample.config []))))
  = []
  /\ copiesOf (pageSourcePath Sample.indexPage)
       (map fst (actions (snd (package Sample.externals Sample.allSucceed
                                 Sample.config []))))
     = ["/ws/build/assets/pages/index.html"].
Proof.
  split.
  - apply (pages_are_wrapped_or_copied Sample.externals Sample.allSucceed
             Sample.config [] Sample.appPage).
    + repeat constructor; cbn [In map]; intuition discriminate.
    + cbn [In map]. vm_compute. intuition discriminate.
    + vm_compute. tauto.
    + reflexivity.
  - apply (pages_are_wrapped_or_copied Sample.externals Sample.allSucceed
             Sample.config [] Sample.indexPage).
    + repeat constructor; cbn [In map]; intuition discriminate.
    + cbn [In map]. vm_compute. intuition discriminate.
    + vm_compute. tauto.
    + reflexivity.
Defined.

Lemma working_tree_is_removed_last_witness :
  In (succeeded (WriteFile "/ws/build/packagename.txt" "package.zip"))
     (actions (snd (package Sample.externals Sample.allSucceed Sample.config []))).
Proof.
  destruct (working_tree_is_removed_last Sample.externals Sample.allSucceed
              Sample.config [] "/ws/build/pages" None)
    as (_ & _ & H & _).
  - vm_compute. tauto.
  - exact H.
Defined.

Lemma target_is_forced_to_serverless_witness :
  exists configuration,
    NextConfiguration.parseNextConfiguration NextConfiguration.recent "/ws"
    = Ok configuration
    /\ NextConfiguration.get configuration "target"
       = Some (NextConfiguration.Text "serverless")
    /\ (forall key, key <> "target" ->
          NextConfiguration.get configuration key
          = NextConfiguration.get NextConfiguration.userConfiguration key)
    /\ map fst configuration = ["target"; "poweredByHeader"; "distDir"].
Proof.
  apply (target_is_forced_to_serverless NextConfiguration.recent "/ws"
           (fun _ _ => Ok NextConfiguration.userConfiguration)
           "phase-production-build").
  right. split; [eexists; reflexivity|reflexivity].
Defined.

Lemma revisions_agree_on_a_parsed_configuration_witness :
  match loadConfig Sample.externals Sample.opened,
        PreviousConfiguration.configure Sample.externals Sample.opened with
  | Ok c, Ok p => same_configuration c p
  | Throw e, Throw e' => e = e'
  | _, _ => False
  end.
Proof.
  apply (revisions_agree_on_a_parsed_configuration Sample.externals
           Sample.opened Sample.raw); reflexivity.
Defined.
